(** * EcoQuest backend: impact estimator, content generator and handlers

    A shallow embedding of [backend/server.py].  Python floats are IEEE
    binary64 numbers and are modelled by Rocq's primitive floats, so the
    arithmetic of the estimator is the arithmetic the interpreter performs.
    A Python [str] is modelled by the string of its UTF-8 bytes.  [strip]
    removes every white-space character of Unicode, read off its encoding;
    [title] is computed on ASCII text and taken from the runtime beyond
    it; [lower] maps the ASCII letters and is only used to look for an
    ASCII phrase. *)

From Stdlib Require Import ZArith QArith Qabs List String Ascii Bool Floats Lia.
From Stdlib Require Import DecimalString.
Import ListNotations.
Set Warnings "-inexact-float,-register-all".

Local Open Scope string_scope.

(** ** Python built-ins used by the server *)

Module Py.

Definition code (c : ascii) : N := N_of_ascii c.

(** [str.isspace] on one ASCII character: TAB..CR, FS..US and SPACE. *)
Definition is_space (c : ascii) : bool :=
  let n := code c in
  ((9 <=? n) && (n <=? 13) || (28 <=? n) && (n <=? 32))%N.

Definition is_upper (c : ascii) : bool :=
  let n := code c in ((65 <=? n) && (n <=? 90))%N.

Definition is_lower (c : ascii) : bool :=
  let n := code c in ((97 <=? n) && (n <=? 122))%N.

Definition is_cased (c : ascii) : bool := is_upper c || is_lower c.

Definition to_lower (c : ascii) : ascii :=
  if is_upper c then ascii_of_N (code c + 32) else c.

Definition to_upper (c : ascii) : ascii :=
  if is_lower c then ascii_of_N (code c - 32) else c.

(** The white space beyond ASCII, by the bytes of its UTF-8 encoding:
    U+0085 and U+00A0 take two bytes; U+1680, U+2000 to U+200A, U+2028,
    U+2029, U+202F, U+205F and U+3000 take three. *)
Definition is_space2 (b1 b2 : ascii) : bool :=
  ((code b1 =? 194) && ((code b2 =? 133) || (code b2 =? 160)))%N.

Definition is_space3 (b1 b2 b3 : ascii) : bool :=
  let n1 := code b1 in
  let n2 := code b2 in
  let n3 := code b3 in
  ((n1 =? 225) && (n2 =? 154) && (n3 =? 128) ||
   (n1 =? 226) && (n2 =? 128) &&
     ((128 <=? n3) && (n3 <=? 138) || (n3 =? 168) || (n3 =? 169) || (n3 =? 175)) ||
   (n1 =? 226) && (n2 =? 129) && (n3 =? 159) ||
   (n1 =? 227) && (n2 =? 128) && (n3 =? 128))%N.

Section Dropping.

Variable sp1 : ascii -> bool.
Variable sp2 : ascii -> ascii -> bool.
Variable sp3 : ascii -> ascii -> ascii -> bool.

(** Drop the white-space characters at the front, each of one, two or
    three bytes. *)
Fixpoint drop_spaces (l : list ascii) : list ascii :=
  match l with
  | [] => []
  | b1 :: l1 =>
      if sp1 b1 then drop_spaces l1
      else
        match l1 with
        | [] => l
        | b2 :: l2 =>
            if sp2 b1 b2 then drop_spaces l2
            else
              match l2 with
              | [] => l
              | b3 :: l3 => if sp3 b1 b2 b3 then drop_spaces l3 else l
              end
        end
  end.

(** The bytes begin with a white-space character. *)
Definition starts_with_space (l : list ascii) : bool :=
  match l with
  | [] => false
  | b1 :: l1 =>
      sp1 b1 ||
      match l1 with
      | [] => false
      | b2 :: l2 =>
          sp2 b1 b2 ||
          match l2 with
          | [] => false
          | b3 :: _ => sp3 b1 b2 b3
          end
      end
  end.

(** The bytes are a sequence of white-space characters. *)
Inductive spaces : list ascii -> Prop :=
| spaces_nil : spaces []
| spaces_one (b1 : ascii) (l : list ascii) :
    sp1 b1 = true -> spaces l -> spaces (b1 :: l)
| spaces_two (b1 b2 : ascii) (l : list ascii) :
    sp2 b1 b2 = true -> spaces l -> spaces (b1 :: b2 :: l)
| spaces_three (b1 b2 b3 : ascii) (l : list ascii) :
    sp3 b1 b2 b3 = true -> spaces l -> spaces (b1 :: b2 :: b3 :: l).

End Dropping.

(** The same tests with the bytes met from the end of the text. *)
Definition is_space2_back (b2 b1 : ascii) : bool := is_space2 b1 b2.
Definition is_space3_back (b3 b2 b1 : ascii) : bool := is_space3 b1 b2 b3.

Definition lstrip_bytes (l : list ascii) : list ascii :=
  drop_spaces is_space is_space2 is_space3 l.

Definition rstrip_bytes (l : list ascii) : list ascii :=
  rev (drop_spaces is_space is_space2_back is_space3_back (rev l)).

(** [s.lstrip()] *)
Definition lstrip (s : string) : string :=
  string_of_list_ascii (lstrip_bytes (list_ascii_of_string s)).

(** [s.rstrip()] *)
Definition rstrip (s : string) : string :=
  string_of_list_ascii (rstrip_bytes (list_ascii_of_string s)).

(** [s.strip()] *)
Definition strip (s : string) : string := rstrip (lstrip s).

(** The text is made of white-space characters only (it may be empty). *)
Definition blank (s : string) : Prop :=
  spaces is_space is_space2 is_space3 (list_ascii_of_string s).

(** Every character of the text is an ASCII character. *)
Definition is_ascii (s : string) : bool :=
  forallb (fun c => code c <? 128)%N (list_ascii_of_string s).

(** [s.lower()] *)
Fixpoint lower (s : string) : string :=
  match s with
  | EmptyString => EmptyString
  | String c rest => String (to_lower c) (lower rest)
  end.

(** [s.title()] on ASCII text: the first cased character of every run of
    cased characters is upper-cased, the others are lower-cased. *)
Fixpoint title_from (previous_is_cased : bool) (s : string) : string :=
  match s with
  | EmptyString => EmptyString
  | String c rest =>
      String (if previous_is_cased then to_lower c else to_upper c)
             (title_from (is_cased c) rest)
  end.

Definition title (s : string) : string := title_from false s.

(** [needle in hay] *)
Fixpoint contains (needle hay : string) : bool :=
  prefix needle hay ||
  match hay with
  | EmptyString => false
  | String _ rest => contains needle rest
  end.

(** [sep.join(items)] *)
Definition join (sep : string) (items : list string) : string :=
  String.concat sep items.

(** [str(n)] for an [int]. *)
Definition str_of_int (n : Z) : string :=
  NilZero.string_of_int (Z.to_int n).

(** [not s] for an optional string: [None] and [""] are falsy. *)
Definition falsy (s : option string) : bool :=
  match s with
  | None => true
  | Some v => v =? ""
  end.

(** [d.get(key, default)] on a dict literal, kept as its item list. *)
Fixpoint dict_get {V : Type} (d : list (string * V)) (key : string) (default : V) : V :=
  match d with
  | [] => default
  | (k, v) :: rest => if k =? key then v else dict_get rest key default
  end.

Definition keys {V : Type} (d : list (string * V)) : list string := map fst d.
Definition values {V : Type} (d : list (string * V)) : list V := map snd d.


End Py.

(** ** Reading a binary64 number as a rational *)

Definition Q_of_spec_float (x : spec_float) : option Q :=
  match x with
  | S754_zero _ => Some 0%Q
  | S754_finite sign m e =>
      Some ((if sign then -1 else 1) * inject_Z (Zpos m) * Qpower 2 e)%Q
  | S754_infinity _ => None
  | S754_nan => None
  end.

Definition Q_of_float (x : float) : option Q := Q_of_spec_float (Prim2SF x).

(** [x] is within [tol] of [k] times [y], both read as exact rationals. *)
Definition within (tol : Q) (x : float) (k : Q) (y : float) : Prop :=
  exists a b : Q,
    Q_of_float x = Some a /\ Q_of_float y = Some b /\ (Qabs (a - k * b) <= tol)%Q.

Definition withinb (tol : Q) (x : float) (k : Q) (y : float) : bool :=
  match Q_of_float x, Q_of_float y with
  | Some a, Some b => Qle_bool (Qabs (a - k * b)) tol
  | _, _ => false
  end.

(** ** Formatting a float with the specification [.1f]

    The decimal conversion is correctly rounded: the exact binary value is
    rounded to one decimal, ties to the even digit. *)

Definition round_half_even (num : Z) (den : positive) : Z :=
  let fl := (num / Zpos den)%Z in
  let twice := (2 * (num mod Zpos den))%Z in
  match (twice ?= Zpos den)%Z with
  | Lt => fl
  | Gt => (fl + 1)%Z
  | Eq => if Z.even fl then fl else (fl + 1)%Z
  end.

Definition format_tenths (negative : bool) (tenths : Z) : string :=
  (if negative then "-" else "") ++
  Py.str_of_int (tenths / 10) ++ "." ++ Py.str_of_int (tenths mod 10).

Definition format_1f (x : float) : string :=
  match Prim2SF x with
  | S754_nan => "nan"
  | S754_infinity negative => if negative then "-inf" else "inf"
  | S754_zero negative => format_tenths negative 0
  | S754_finite negative m e =>
      let q := Qred (inject_Z (Zpos m) * Qpower 2 e * 10)%Q in
      format_tenths negative (round_half_even (Qnum q) (Qden q))
  end.

(** ** Impact estimator *)

Record Co2Impact := mkCo2Impact {
  daily_co2 : float;
  weekly_co2 : float;
  yearly_co2 : float
}.

Definition transport_values : list (string * float) :=
  [("car", 6.5%float); ("bike", 0.0%float); ("walk", 0.0%float); ("public", 2.1%float)].
Definition diet_values : list (string * float) :=
  [("meat", 7.2%float); ("vegetarian", 3.8%float); ("vegan", 2.9%float);
   ("pescatarian", 4.1%float)].
Definition energy_values : list (string * float) :=
  [("low", 2.1%float); ("medium", 4.8%float); ("high", 8.2%float)].
Definition waste_values : list (string * float) :=
  [("minimal", 0.8%float); ("average", 2.3%float); ("high", 4.1%float)].

Definition calculate_co2_impact (transport diet energy waste : string) : Co2Impact :=
  let daily_co2 :=
    (Py.dict_get transport_values transport 6.5 +
     Py.dict_get diet_values diet 7.2 +
     Py.dict_get energy_values energy 4.8 +
     Py.dict_get waste_values waste 2.3)%float in
  {| daily_co2 := daily_co2;
     weekly_co2 := (daily_co2 * 7)%float;
     yearly_co2 := (daily_co2 * 365)%float |}.

Definition suggest_transport : string :=
  "🚴 Try biking or walking for short trips - save 6.5kg CO2/day".
Definition suggest_diet : string :=
  "🥗 Reduce meat consumption 2-3 days/week - save up to 3kg CO2/day".
Definition suggest_energy : string :=
  "💡 Switch to LED bulbs and unplug devices - save 2-4kg CO2/day".
Definition suggest_waste : string :=
  "♻️ Start composting and reduce packaging - save 1-2kg CO2/day".

(** [suggestions.append(x)] *)
Definition append {A : Type} (l : list A) (x : A) : list A := (l ++ [x])%list.

Definition generate_suggestions (transport diet energy waste : string) : list string :=
  let suggestions := [] in
  let suggestions :=
    if transport =? "car" then append suggestions suggest_transport else suggestions in
  let suggestions :=
    if diet =? "meat" then append suggestions suggest_diet else suggestions in
  let suggestions :=
    if energy =? "high" then append suggestions suggest_energy else suggestions in
  let suggestions :=
    if waste =? "high" then append suggestions suggest_waste else suggestions in
  suggestions.

(** ** Exceptions

    Every exception the server meets derives from [Exception], so an
    [except Exception] clause catches each constructor below, the
    [HTTPException] of the web framework included. *)

Inductive exn : Type :=
| HTTPException (status_code : Z) (detail : string)
| ValueError (msg : string)
| AttributeError (msg : string)
| ValidationError (msg : string)
| ProviderError (msg : string)
| StoreError (msg : string).

Inductive result (A : Type) : Type :=
| Return (value : A)
| Raise (e : exn).

Arguments Return {A} value.
Arguments Raise {A} e.

Definition bind {A B : Type} (c : result A) (k : A -> result B) : result B :=
  match c with
  | Return v => k v
  | Raise e => Raise e
  end.

(** [try: body  except Exception as e: handler(e)] *)
Definition try_except {A : Type} (body : result A) (handler : exn -> result A) : result A :=
  match body with
  | Return v => Return v
  | Raise e => handler e
  end.

Declare Scope py_scope.
Delimit Scope py_scope with py.
Notation "x <- c ;; k" := (bind c (fun x => k))
  (at level 61, c at next level, right associativity) : py_scope.

(** ** The world outside the process

    Environment variables, the two text-generation providers, the clock,
    the identifier generator and the health of the document store are inputs
    of every request. *)

Record Message := mkMessage { role : string; content : string }.

Record ChatRequest := mkChatRequest {
  model : string;
  messages : list Message;
  temperature : float;
  max_tokens : Z;
  response_format : option string;
  stream : option bool
}.

Record World := mkWorld {
  (** [os.environ.get] *)
  environ : string -> option string;
  (** [Groq(api_key).chat.completions.create(...)], read up to
      [response.choices[0].message.content], which may be [None] *)
  groq_create : string -> ChatRequest -> result (option string);
  (** [genai.GenerativeModel(name).generate_content(prompt)] after
      [genai.configure(api_key)], read up to [response.text] *)
  gemini_generate_content : string -> string -> string -> result string;
  (** [str(uuid.uuid4())] *)
  uuid4 : string;
  (** [datetime.utcnow()] *)
  utcnow : Z;
  (** the error a store operation raises during this request, if any *)
  store_fault : option exn
}.

(** ** Content generator *)

Definition error_msg : string :=
  "AI service is currently unavailable. Please ensure Groq API key is properly configured.".

Definition is_placeholder (key : option string) (placeholder : string) : bool :=
  match key with
  | Some v => v =? placeholder
  | None => false
  end.

(** [response.choices[0].message.content.strip()] *)
Definition content_strip (content : option string) : result string :=
  match content with
  | Some text => Return (Py.strip text)
  | None => Raise (AttributeError "'NoneType' object has no attribute 'strip'")
  end.

(** The request the structured branch sends. *)
Definition json_request (prompt system_message : string) : ChatRequest :=
  {| model := "llama-3.1-70b-versatile";
     messages :=
       [ {| role := "system"; content := system_message |};
         {| role := "user";
            content := "Generate a JSON response for climate onboarding: " ++ prompt |} ];
     temperature := 0.7%float;
     max_tokens := 800;
     response_format := Some "json_object";
     stream := None |}.

(** The request the regular chat branch sends. *)
Definition chat_request (prompt system_message : string) : ChatRequest :=
  {| model := "llama-3.1-8b-instant";
     messages :=
       [ {| role := "system"; content := system_message |};
         {| role := "user"; content := prompt |} ];
     temperature := 0.8%float;
     max_tokens := 500;
     response_format := None;
     stream := Some false |}.

Definition groq_request (prompt system_message : string) : ChatRequest :=
  if Py.contains "personalized climate education path" (Py.lower prompt)
  then json_request prompt system_message
  else chat_request prompt system_message.

(** The body of the outer [try] of [generate_ai_content]. *)
Definition groq_attempt (w : World) (prompt system_message : string) : result string :=
  let groq_api_key := environ w "GROQ_API_KEY" in
  match groq_api_key with
  | Some key =>
      if Py.falsy groq_api_key || is_placeholder groq_api_key "your_groq_api_key_here"
      then Raise (ValueError "Groq API key not configured properly")
      else
        if Py.contains "personalized climate education path" (Py.lower prompt)
        then (response <- groq_create w key (json_request prompt system_message) ;;
              content <- content_strip response ;;
              Return content)%py
        else (response <- groq_create w key (chat_request prompt system_message) ;;
              content <- content_strip response ;;
              Return content)%py
  | None => Raise (ValueError "Groq API key not configured properly")
  end.

Definition gemini_configured (w : World) : bool :=
  let gemini_api_key := environ w "GEMINI_API_KEY" in
  negb (Py.falsy gemini_api_key) &&
  negb (is_placeholder gemini_api_key "your_gemini_api_key_here").

Definition nl : string := String (ascii_of_N 10) EmptyString.

(** The body of the inner [try]: [Some content] when it reaches
    [return content], [None] when the [if] is skipped. *)
Definition gemini_attempt (w : World) (prompt system_message : string)
  : result (option string) :=
  match environ w "GEMINI_API_KEY" with
  | Some key =>
      if gemini_configured w
      then
        (let full_prompt := system_message ++ nl ++ nl ++ "User Query: " ++ prompt in
         text <- gemini_generate_content w key "gemini-1.5-flash" full_prompt ;;
         let content :=
           if text =? "" then "Sorry, I couldn't generate a response."
           else Py.strip text in
         Return (Some content))%py
      else Return None
  | None => Return None
  end.

Definition generate_ai_content (w : World) (prompt system_message : string) : result string :=
  try_except (groq_attempt w prompt system_message)
    (fun e =>
       (returned <- try_except (gemini_attempt w prompt system_message)
                               (fun fallback_error => Return None) ;;
        match returned with
        | Some content => Return content
        | None => Return error_msg
        end)%py).

Definition default_system_message : string := "You are an expert climate educator.".

(** ** Decoded JSON and the request and response models *)

Inductive json : Type :=
| JNull
| JBool (b : bool)
| JInt (n : Z)
| JFloat (x : float)
| JStr (s : string)
| JList (items : list json)
| JDict (items : list (string * json)).

(** [d.get(key)] on a decoded object: [None] when the key is absent. *)
Fixpoint dict_lookup {V : Type} (d : list (string * V)) (key : string) : option V :=
  match d with
  | [] => None
  | (k, v) :: rest => if k =? key then Some v else dict_lookup rest key
  end.

Module OnboardingRequest.
Record t := mk {
  age : Z;
  interests : list string;
  knowledge_level : string;
  learning_style : string;
  location : option string
}.
End OnboardingRequest.

Module OnboardingResponse.
Record t := mk {
  user_id : string;
  personalized_path : list (string * json);
  welcome_message : string
}.
End OnboardingResponse.

Module HabitInput.
Record t := mk {
  user_id : string;
  transport : string;
  diet : string;
  energy_usage : string;
  waste_habits : string
}.
End HabitInput.

Module ImpactSimulation.
Record t := mk {
  daily_co2 : float;
  weekly_co2 : float;
  yearly_co2 : float;
  suggestions : list string;
  positive_impact : string
}.
End ImpactSimulation.

Module User.
Record t := mk {
  id : string;
  age : Z;
  interests : list string;
  knowledge_level : string;
  learning_style : string;
  location : option string;
  points : Z;
  level : Z;
  completed_quests : list string;
  created_at : Z
}.
End User.

Module UserProgress.
Record t := mk {
  user_id : string;
  current_co2_footprint : float;
  daily_habits : list (string * string);
  completed_actions : list string;
  streak_days : Z;
  last_activity : Z
}.
End UserProgress.

(** ** Document store

    A collection is the list of its documents in insertion order; nothing
    in the server declares a unique index, so the list may in principle
    hold several documents with one key. *)

Record DB := mkDB {
  users : list User.t;
  user_progress : list UserProgress.t
}.

Definition empty_db : DB := {| users := []; user_progress := [] |}.

(** A handler reads and writes the store and may raise: the store it
    leaves behind is kept whether it returns or raises. *)
Definition M (A : Type) : Type := DB -> result A * DB.

Definition ret {A : Type} (v : A) : M A := fun db => (Return v, db).

Definition raise {A : Type} (e : exn) : M A := fun db => (Raise e, db).

Definition mbind {A B : Type} (c : M A) (k : A -> M B) : M B :=
  fun db =>
    match c db with
    | (Return v, db') => k v db'
    | (Raise e, db') => (Raise e, db')
    end.

Definition lift {A : Type} (c : result A) : M A := fun db => (c, db).

(** [try: body  except Exception as e: handler(e)] around store effects. *)
Definition try_except_M {A : Type} (body : M A) (handler : exn -> M A) : M A :=
  fun db =>
    match body db with
    | (Return v, db') => (Return v, db')
    | (Raise e, db') => handler e db'
    end.

Declare Scope handler_scope.
Delimit Scope handler_scope with handler.
Notation "x <- c ;; k" := (mbind c (fun x => k))
  (at level 61, c at next level, right associativity) : handler_scope.

(** A store operation fails with the fault of the world, if there is one. *)
Definition store_call {A : Type} (w : World) (op : M A) : M A :=
  match store_fault w with
  | Some e => raise e
  | None => op
  end.

(** [db.users.insert_one(doc)] *)
Definition users_insert_one (w : World) (doc : User.t) : M unit :=
  store_call w (fun db =>
    (Return tt, {| users := (users db ++ [doc])%list; user_progress := user_progress db |})).

Fixpoint find_user (docs : list User.t) (user_id : string) : option User.t :=
  match docs with
  | [] => None
  | doc :: rest => if User.id doc =? user_id then Some doc else find_user rest user_id
  end.

(** [db.users.find_one({"id": user_id})] *)
Definition users_find_one (w : World) (user_id : string) : M (option User.t) :=
  store_call w (fun db => (Return (find_user (users db) user_id), db)).

(** Replace the first document whose [user_id] matches; [None] when no
    document matches. *)
Fixpoint replace_first (docs : list UserProgress.t) (user_id : string)
  (doc : UserProgress.t) : option (list UserProgress.t) :=
  match docs with
  | [] => None
  | d :: rest =>
      if UserProgress.user_id d =? user_id then Some (doc :: rest)
      else match replace_first rest user_id doc with
           | Some rest' => Some (d :: rest')
           | None => None
           end
  end.

(** Replace the first match or, with [upsert=True], insert the document. *)
Definition upsert (docs : list UserProgress.t) (user_id : string)
  (doc : UserProgress.t) : list UserProgress.t :=
  match replace_first docs user_id doc with
  | Some docs' => docs'
  | None => (docs ++ [doc])%list
  end.

(** [db.user_progress.replace_one({"user_id": user_id}, doc, upsert=True)] *)
Definition user_progress_replace_one (w : World) (user_id : string)
  (doc : UserProgress.t) : M unit :=
  store_call w (fun db =>
    (Return tt, {| users := users db;
                   user_progress := upsert (user_progress db) user_id doc |})).

(** ** Library functions the handlers call

    Their code is outside the repository, so the handlers take them as
    parameters: [json.loads] ([None] stands for the exception it raises on
    text that is not valid JSON), the validation of a decoded value that
    is not a [str] for a model field declared [str] ([None] stands for its
    validation error), and [str.title] on a text with characters beyond
    ASCII, whose case mapping comes from the Unicode character database. *)

Record Runtime := mkRuntime {
  json_loads : string -> option json;
  validate_str : json -> option string;
  unicode_title : string -> string
}.

(** [s.title()] *)
Definition str_title (rt : Runtime) (s : string) : string :=
  if Py.is_ascii s then Py.title s else unicode_title rt s.

(** ** Handlers *)

Definition indent : string := "        ".

Definition onboarding_prompt (request : OnboardingRequest.t) : string :=
  nl ++
  indent ++ "Create a personalized climate education path for a " ++
    Py.str_of_int (OnboardingRequest.age request) ++ "-year-old with " ++
    OnboardingRequest.knowledge_level request ++ " knowledge level." ++ nl ++
  indent ++ "Their interests include: " ++
    Py.join ", " (OnboardingRequest.interests request) ++ "." ++ nl ++
  indent ++ "They prefer " ++ OnboardingRequest.learning_style request ++
    " learning style." ++ nl ++
  indent ++ nl ++
  indent ++ "Generate a JSON response with:" ++ nl ++
  indent ++ "- welcome_message: Encouraging welcome (max 100 words)" ++ nl ++
  indent ++ "- learning_modules: 5 modules tailored to their interests and level" ++ nl ++
  indent ++ "- first_quest: An engaging first activity" ++ nl ++
  indent ++ "- daily_tip: One practical climate tip" ++ nl ++
  indent ++ nl ++
  indent ++ "Keep it motivational and age-appropriate." ++ nl ++
  indent.

(** The [except] branch of the parse step of [complete_onboarding]. *)
Definition fallback_path (rt : Runtime) (request : OnboardingRequest.t)
  : list (string * json) :=
  let interests := OnboardingRequest.interests request in
  let interests_text :=
    match interests with
    | [] => "climate change and sustainability"
    | _ :: _ => Py.join ", " (firstn 2 interests)
    end in
  let first_interest :=
    match interests with
    | [] => "climate"
    | first :: _ => first
    end in
  [ ("welcome_message",
      JStr ("Welcome to EcoQuest! Ready to become a climate hero? Based on your interests in "
            ++ interests_text ++ ", we've created an exciting journey just for you!"));
    ("learning_modules",
      JList
        [ JDict [("title", JStr "Climate Basics"); ("icon", JStr "🌍"); ("progress", JInt 0)];
          JDict [("title", JStr (str_title rt first_interest ++ " Deep Dive"));
                 ("icon", JStr "🔍"); ("progress", JInt 0)];
          JDict [("title", JStr "Carbon Footprint"); ("icon", JStr "👣"); ("progress", JInt 0)];
          JDict [("title", JStr "Green Solutions"); ("icon", JStr "🌱"); ("progress", JInt 0)];
          JDict [("title", JStr "Take Action"); ("icon", JStr "⚡"); ("progress", JInt 0)] ]);
    ("first_quest",
      JStr "Calculate your carbon footprint and discover 3 easy ways to reduce it today!");
    ("daily_tip",
      JStr "Did you know? Unplugging devices when not in use can save up to 10% on your electricity bill!") ].

(** The parse step: the decoded object when [json.loads] gives a dict,
    the fallback when it raises or when [.keys()] raises on another value. *)
Definition parse_path (rt : Runtime) (request : OnboardingRequest.t)
  (ai_response : string) : list (string * json) :=
  match json_loads rt ai_response with
  | Some (JDict items) => items
  | Some _ => fallback_path rt request
  | None => fallback_path rt request
  end.

(** [personalized_path.get("welcome_message", "Welcome to EcoQuest!")]
    passed to the [str] field of the response model. *)
Definition welcome_of (rt : Runtime) (personalized_path : list (string * json))
  : result string :=
  match dict_lookup personalized_path "welcome_message" with
  | None => Return "Welcome to EcoQuest!"
  | Some (JStr s) => Return s
  | Some v =>
      match validate_str rt v with
      | Some s => Return s
      | None => Raise (ValidationError "welcome_message")
      end
  end.

Definition complete_onboarding (rt : Runtime) (w : World)
  (request : OnboardingRequest.t) : M OnboardingResponse.t :=
  try_except_M
    (let user :=
       {| User.id := uuid4 w;
          User.age := OnboardingRequest.age request;
          User.interests := OnboardingRequest.interests request;
          User.knowledge_level := OnboardingRequest.knowledge_level request;
          User.learning_style := OnboardingRequest.learning_style request;
          User.location := OnboardingRequest.location request;
          User.points := 0;
          User.level := 1;
          User.completed_quests := [];
          User.created_at := utcnow w |} in
     (result <- users_insert_one w user ;;
      let ai_prompt := onboarding_prompt request in
      ai_response <- lift (generate_ai_content w ai_prompt
        "You are an expert climate educator creating personalized learning paths.") ;;
      let personalized_path := parse_path rt request ai_response in
      welcome_message <- lift (welcome_of rt personalized_path) ;;
      ret {| OnboardingResponse.user_id := User.id user;
             OnboardingResponse.personalized_path := personalized_path;
             OnboardingResponse.welcome_message := welcome_message |})%handler)
    (fun e => raise (HTTPException 500 "Onboarding failed")).

Definition impact_prompt (impact_data : Co2Impact) : string :=
  nl ++
  indent ++ "A user has a daily CO2 footprint of " ++
    format_1f (daily_co2 impact_data) ++ "kg." ++ nl ++
  indent ++ "Create an encouraging message about the positive impact if 1000 similar users made better choices." ++ nl ++
  indent ++ "Keep it under 50 words and inspiring." ++ nl ++
  indent.

Definition calculate_impact (w : World) (request : HabitInput.t)
  : M ImpactSimulation.t :=
  try_except_M
    (let impact_data :=
       calculate_co2_impact
         (HabitInput.transport request) (HabitInput.diet request)
         (HabitInput.energy_usage request) (HabitInput.waste_habits request) in
     let suggestions :=
       generate_suggestions
         (HabitInput.transport request) (HabitInput.diet request)
         (HabitInput.energy_usage request) (HabitInput.waste_habits request) in
     let ai_prompt := impact_prompt impact_data in
     (positive_impact <- lift (generate_ai_content w ai_prompt default_system_message) ;;
      let progress :=
        {| UserProgress.user_id := HabitInput.user_id request;
           UserProgress.current_co2_footprint := daily_co2 impact_data;
           UserProgress.daily_habits :=
             [ ("transport", HabitInput.transport request);
               ("diet", HabitInput.diet request);
               ("energy", HabitInput.energy_usage request);
               ("waste", HabitInput.waste_habits request) ];
           UserProgress.completed_actions := [];
           UserProgress.streak_days := 0;
           UserProgress.last_activity := utcnow w |} in
      db_result <- user_progress_replace_one w (HabitInput.user_id request) progress ;;
      ret {| ImpactSimulation.daily_co2 := daily_co2 impact_data;
             ImpactSimulation.weekly_co2 := weekly_co2 impact_data;
             ImpactSimulation.yearly_co2 := yearly_co2 impact_data;
             ImpactSimulation.suggestions := suggestions;
             ImpactSimulation.positive_impact := positive_impact |})%handler)
    (fun e => raise (HTTPException 500 "Impact calculation failed")).

Definition get_user (w : World) (user_id : string) : M User.t :=
  try_except_M
    (user <- users_find_one w user_id ;;
     match user with
     | None => raise (HTTPException 404 "User not found")
     | Some doc => ret doc
     end)%handler
    (fun e => raise (HTTPException 500 "Failed to retrieve user")).

(** The stores the server can hold: it starts empty and only
    [complete_onboarding] and [calculate_impact] write to it. *)
Inductive reachable (rt : Runtime) : DB -> Prop :=
| reach_empty : reachable rt empty_db
| reach_onboarding (db : DB) (w : World) (request : OnboardingRequest.t) :
    reachable rt db -> reachable rt (snd (complete_onboarding rt w request db))
| reach_impact (db : DB) (w : World) (request : HabitInput.t) :
    reachable rt db -> reachable rt (snd (calculate_impact w request db)).

(** ** Vocabulary of the properties *)

Inductive category : Type := Transport | Diet | Energy | Waste.

Definition table (c : category) : list (string * float) :=
  match c with
  | Transport => transport_values
  | Diet => diet_values
  | Energy => energy_values
  | Waste => waste_values
  end.

(** The default each [.get] of [calculate_co2_impact] passes. *)
Definition default_coefficient (c : category) : float :=
  match c with
  | Transport => 6.5%float
  | Diet => 7.2%float
  | Energy => 4.8%float
  | Waste => 2.3%float
  end.

(** The term a category adds to [daily_co2] for the supplied value. *)
Definition contribution (c : category) (value : string) : float :=
  Py.dict_get (table c) value (default_coefficient c).

Definition largest (l : list float) : float :=
  fold_right (fun x acc => if (acc <? x)%float then x else acc) 0%float l.

(** Every value [daily_co2] can take: one coefficient or default per category. *)
Definition candidates (c : category) : list float :=
  default_coefficient c :: Py.values (table c).

Definition all_daily : list float :=
  flat_map (fun a =>
    flat_map (fun b =>
      flat_map (fun c =>
        map (fun d => (a + b + c + d)%float) (candidates Waste))
        (candidates Energy))
      (candidates Diet))
    (candidates Transport).

(** The documents of one user in the progress collection. *)
Definition progress_of (user_id : string) (db : DB) : list UserProgress.t :=
  filter (fun doc => UserProgress.user_id doc =? user_id) (user_progress db).

(** The record [calculate_impact] builds from a request. *)
Definition fresh_progress (w : World) (request : HabitInput.t) : UserProgress.t :=
  {| UserProgress.user_id := HabitInput.user_id request;
     UserProgress.current_co2_footprint :=
       daily_co2 (calculate_co2_impact
         (HabitInput.transport request) (HabitInput.diet request)
         (HabitInput.energy_usage request) (HabitInput.waste_habits request));
     UserProgress.daily_habits :=
       [ ("transport", HabitInput.transport request);
         ("diet", HabitInput.diet request);
         ("energy", HabitInput.energy_usage request);
         ("waste", HabitInput.waste_habits request) ];
     UserProgress.completed_actions := [];
     UserProgress.streak_days := 0;
     UserProgress.last_activity := utcnow w |}.

(** The titles of the learning modules of a personalized path, in order. *)
Definition title_of (entry : json) : option string :=
  match entry with
  | JDict items =>
      match dict_lookup items "title" with
      | Some (JStr s) => Some s
      | _ => None
      end
  | _ => None
  end.

Definition module_titles (path : list (string * json)) : list (option string) :=
  match dict_lookup path "learning_modules" with
  | Some (JList entries) => map title_of entries
  | _ => []
  end.

Definition onboarding_system_message : string :=
  "You are an expert climate educator creating personalized learning paths.".

(** The static fallback of onboarding as the specification describes it:
    five modules with fixed titles but the second, a welcome message built
    around the interests text, and two fixed literals. *)
Definition static_fallback (interests_text second_title : string)
  : list (string * json) :=
  [ ("welcome_message",
      JStr ("Welcome to EcoQuest! Ready to become a climate hero? Based on your interests in "
            ++ interests_text ++ ", we've created an exciting journey just for you!"));
    ("learning_modules",
      JList
        [ JDict [("title", JStr "Climate Basics"); ("icon", JStr "🌍"); ("progress", JInt 0)];
          JDict [("title", JStr second_title); ("icon", JStr "🔍"); ("progress", JInt 0)];
          JDict [("title", JStr "Carbon Footprint"); ("icon", JStr "👣"); ("progress", JInt 0)];
          JDict [("title", JStr "Green Solutions"); ("icon", JStr "🌱"); ("progress", JInt 0)];
          JDict [("title", JStr "Take Action"); ("icon", JStr "⚡"); ("progress", JInt 0)] ]);
    ("first_quest",
      JStr "Calculate your carbon footprint and discover 3 easy ways to reduce it today!");
    ("daily_tip",
      JStr "Did you know? Unplugging devices when not in use can save up to 10% on your electricity bill!") ].

(** The user document [complete_onboarding] builds from a request. *)
Definition new_user (w : World) (request : OnboardingRequest.t) : User.t :=
  {| User.id := uuid4 w;
     User.age := OnboardingRequest.age request;
     User.interests := OnboardingRequest.interests request;
     User.knowledge_level := OnboardingRequest.knowledge_level request;
     User.learning_style := OnboardingRequest.learning_style request;
     User.location := OnboardingRequest.location request;
     User.points := 0;
     User.level := 1;
     User.completed_quests := [];
     User.created_at := utcnow w |}.

Definition progress_keys (db : DB) : list string :=
  map UserProgress.user_id (user_progress db).

(** ** Sample worlds *)

(** No credential, no provider reachable, a healthy store. *)
Definition offline_world : World :=
  {| environ := fun _ => None;
     groq_create := fun _ _ => Raise (ProviderError "connection refused");
     gemini_generate_content := fun _ _ _ => Raise (ProviderError "connection refused");
     uuid4 := "7c9e6679-7425-40de-944b-e07fc1f90ae7";
     utcnow := 1730764800;
     store_fault := None |}.

(** The primary provider answers with text padded by white space. *)
Definition padded_world : World :=
  {| environ := fun name => if name =? "GROQ_API_KEY" then Some "gsk_live_key" else None;
     groq_create := fun _ _ => Return (Some ("  Plant a tree." ++ nl));
     gemini_generate_content := fun _ _ _ => Raise (ProviderError "connection refused");
     uuid4 := "7c9e6679-7425-40de-944b-e07fc1f90ae7";
     utcnow := 1730764800;
     store_fault := None |}.

(** A decoder that knows the empty object only, with strict validation
    and no case table. *)
Definition strict_runtime : Runtime :=
  {| json_loads := fun text => if text =? "{}" then Some (JDict []) else None;
     validate_str := fun _ => None;
     unicode_title := fun text => text |}.

Definition ocean_request : OnboardingRequest.t :=
  {| OnboardingRequest.age := 16;
     OnboardingRequest.interests := ["oceans"; "forests"; "energy"];
     OnboardingRequest.knowledge_level := "beginner";
     OnboardingRequest.learning_style := "visual";
     OnboardingRequest.location := Some "Lisbon" |}.

Definition forest_request : OnboardingRequest.t :=
  {| OnboardingRequest.age := 16;
     OnboardingRequest.interests := ["forests"];
     OnboardingRequest.knowledge_level := "beginner";
     OnboardingRequest.learning_style := "visual";
     OnboardingRequest.location := None |}.

Definition no_interest_request : OnboardingRequest.t :=
  {| OnboardingRequest.age := 30;
     OnboardingRequest.interests := [];
     OnboardingRequest.knowledge_level := "advanced";
     OnboardingRequest.learning_style := "reading";
     OnboardingRequest.location := None |}.

Definition commuter_request : HabitInput.t :=
  {| HabitInput.user_id := "7c9e6679-7425-40de-944b-e07fc1f90ae7";
     HabitInput.transport := "car";
     HabitInput.diet := "meat";
     HabitInput.energy_usage := "high";
     HabitInput.waste_habits := "high" |}.

(** ** Module start-up

    The module reads three environment variables when it is imported:
    [os.environ['MONGO_URL']] and [os.environ['DB_NAME']] raise [KeyError]
    when unset, and an unset or empty [GEMINI_API_KEY] raises [ValueError].
    [AsyncIOMotorClient(mongo_url)] and [client[db_name]] raise when the
    driver rejects the URL or the database name; the driver's two checks are
    parameters, [Some message] standing for the exception. *)

Record Driver := mkDriver {
  rejects_url : string -> option string;
  rejects_name : string -> option string
}.

Inductive startup : Type :=
| Started (mongo_url db_name api_key : string)
| StartupKeyError (name : string)
| StartupDriverError (msg : string)
| StartupValueError (msg : string).

Definition load_module (driver : Driver) (environ : string -> option string) : startup :=
  match environ "MONGO_URL" with
  | None => StartupKeyError "MONGO_URL"
  | Some mongo_url =>
      match rejects_url driver mongo_url with
      | Some msg => StartupDriverError msg
      | None =>
          match environ "DB_NAME" with
          | None => StartupKeyError "DB_NAME"
          | Some db_name =>
              match rejects_name driver db_name with
              | Some msg => StartupDriverError msg
              | None =>
                  let API_KEY := environ "GEMINI_API_KEY" in
                  match API_KEY with
                  | Some key =>
                      if Py.falsy API_KEY
                      then StartupValueError
                             "GEMINI_API_KEY environment variable is required"
                      else Started mongo_url db_name key
                  | None =>
                      StartupValueError "GEMINI_API_KEY environment variable is required"
                  end
              end
          end
      end
  end.

(** ** The handlers that only read *)

Definition dq : string := String (ascii_of_N 34) EmptyString.

Module WhatIfRequest.
Record t := mk {
  scenario : string;
  context : option string
}.
End WhatIfRequest.

Module LocalActionRequest.
Record t := mk {
  location : string;
  interests : list string
}.
End LocalActionRequest.

Definition what_if_prompt (scenario : string) : string :=
  nl ++
  indent ++ "Create an engaging " ++ dq ++ "What if?" ++ dq ++
    " climate scenario response for: " ++ dq ++ scenario ++ dq ++ nl ++
  indent ++ nl ++
  indent ++ "Include:" ++ nl ++
  indent ++ "- A brief, engaging narrative (100-150 words)" ++ nl ++
  indent ++ "- Key environmental impact numbers" ++ nl ++
  indent ++ "- Connection to user's daily life" ++ nl ++
  indent ++ "- One actionable step they can take" ++ nl ++
  indent ++ nl ++
  indent ++ "Make it inspiring and scientifically grounded but accessible." ++ nl ++
  indent.

Definition what_if_scenario (w : World) (request : WhatIfRequest.t)
  : M (list (string * json)) :=
  try_except_M
    (let ai_prompt := what_if_prompt (WhatIfRequest.scenario request) in
     (response <- lift (generate_ai_content w ai_prompt default_system_message) ;;
      ret [("scenario_response", JStr response)])%handler)
    (fun e => raise (HTTPException 500 "Scenario generation failed")).

Definition local_actions_prompt (request : LocalActionRequest.t) : string :=
  nl ++
  indent ++ "Generate 5 specific local environmental actions for someone in " ++
    LocalActionRequest.location request ++ nl ++
  indent ++ "interested in " ++
    Py.join ", " (LocalActionRequest.interests request) ++ "." ++ nl ++
  indent ++ nl ++
  indent ++ "Format as JSON array with objects containing:" ++ nl ++
  indent ++ "- title: Action title" ++ nl ++
  indent ++ "- description: Brief description" ++ nl ++
  indent ++ "- impact: Environmental benefit" ++ nl ++
  indent ++ "- difficulty: " ++ dq ++ "easy" ++ dq ++ ", " ++ dq ++ "medium" ++ dq ++
    ", " ++ dq ++ "hard" ++ dq ++ nl ++
  indent ++ nl ++
  indent ++ "Focus on realistic, location-specific actions." ++ nl ++
  indent.

(** The [except] branch of the parse step of [get_local_actions]. *)
Definition fallback_actions : json :=
  JList
    [ JDict [ ("title", JStr "Join a local beach/park cleanup");
              ("description", JStr "Connect with environmental groups in your area");
              ("impact", JStr "Remove 50+ pieces of litter per hour");
              ("difficulty", JStr "easy") ];
      JDict [ ("title", JStr "Start a community garden");
              ("description", JStr "Transform unused space into green areas");
              ("impact", JStr "Absorb 40kg CO2 per year per plot");
              ("difficulty", JStr "medium") ] ].

(** [len(value)] as the handler evaluates it for its log line; only whether
    it raises matters.  On a number, a boolean and [None] it raises
    [TypeError]; the server observes that exception through [except
    Exception] clauses alone, which do not look at the class, and it is
    carried here by the constructor for built-in errors with a message. *)
Definition log_len (value : json) : result unit :=
  match value with
  | JStr _ => Return tt
  | JList _ => Return tt
  | JDict _ => Return tt
  | JNull => Raise (ValueError "TypeError: object of type 'NoneType' has no len()")
  | JBool _ => Raise (ValueError "TypeError: object of type 'bool' has no len()")
  | JInt _ => Raise (ValueError "TypeError: object of type 'int' has no len()")
  | JFloat _ => Raise (ValueError "TypeError: object of type 'float' has no len()")
  end.

(** The parse step of [get_local_actions]: the decoded value, whatever its
    shape, or the fallback when [json.loads] raises. *)
Definition parse_actions (rt : Runtime) (response : string) : json :=
  match json_loads rt response with
  | Some actions => actions
  | None => fallback_actions
  end.

Definition get_local_actions (rt : Runtime) (w : World)
  (request : LocalActionRequest.t) : M (list (string * json)) :=
  try_except_M
    (let ai_prompt := local_actions_prompt request in
     (response <- lift (generate_ai_content w ai_prompt default_system_message) ;;
      let actions := parse_actions rt response in
      logged <- lift (log_len actions) ;;
      ret [("local_actions", actions)])%handler)
    (fun e => raise (HTTPException 500 "Local actions retrieval failed")).

(** Two more behaviours of code outside the repository, met by
    [get_learning_content] alone, whose request body is an arbitrary JSON
    object: what the store makes of a query [{"id": value}] whose value is
    not a string (it may match nothing, evaluate operators or refuse the
    value), and [str] of a decoded value that is not a string. *)
Record Foreign := mkForeign {
  query_users : json -> list User.t -> result (option User.t);
  str_of_json : json -> string
}.

(** [bool(value)] *)
Definition truthy (value : json) : bool :=
  match value with
  | JNull => false
  | JBool b => b
  | JInt n => negb (n =? 0)%Z
  | JFloat x => negb (x =? 0)%float
  | JStr s => negb (s =? "")
  | JList items => match items with [] => false | _ :: _ => true end
  | JDict items => match items with [] => false | _ :: _ => true end
  end.

(** [db.users.find_one({"id": user_id})] with a decoded [user_id]: a
    string is compared with the stored identifiers. *)
Definition users_find_one_by (fr : Foreign) (w : World) (user_id : json)
  : M (option User.t) :=
  store_call w (fun db =>
    match user_id with
    | JStr s => (Return (find_user (users db) s), db)
    | other => (query_users fr other (users db), db)
    end).

(** [f"{topic}"] *)
Definition format_value (fr : Foreign) (value : json) : string :=
  match value with
  | JStr s => s
  | other => str_of_json fr other
  end.

Definition indent12 : string := "            ".

Definition learning_fields : string :=
  indent12 ++ "Generate a JSON response with:" ++ nl ++
  indent12 ++ "- title: Engaging lesson title" ++ nl ++
  indent12 ++ "- content: Educational content (200-300 words)" ++ nl ++
  indent12 ++ "- key_points: 3-5 key takeaways" ++ nl ++
  indent12 ++ "- action_items: 2-3 actionable steps" ++ nl ++
  indent12 ++ "- fun_fact: One interesting climate fact" ++ nl ++
  indent12 ++ "- quiz_question: One multiple choice question with 4 options and correct answer" ++ nl.

Definition personal_prompt (fr : Foreign) (topic : json) (user : User.t) : string :=
  nl ++
  indent12 ++ "Create engaging learning content about " ++ format_value fr topic ++
    " for a " ++ Py.str_of_int (User.age user) ++ "-year-old with " ++
    User.knowledge_level user ++ " knowledge level." ++ nl ++
  indent12 ++ "Their interests include: " ++ Py.join ", " (User.interests user) ++ "." ++ nl ++
  indent12 ++ "They prefer " ++ User.learning_style user ++ " learning style." ++ nl ++
  indent12 ++ nl ++
  learning_fields ++
  indent12 ++ nl ++
  indent12 ++ "Make it age-appropriate and engaging." ++ nl ++
  indent12.

Definition general_prompt (fr : Foreign) (topic : json) : string :=
  nl ++
  indent12 ++ "Create engaging learning content about " ++ format_value fr topic ++
    " for general audience." ++ nl ++
  indent12 ++ nl ++
  learning_fields ++
  indent12.

Definition learning_system_message : string :=
  "You are an expert climate educator creating engaging learning content.".

Definition get_learning_content (fr : Foreign) (rt : Runtime) (w : World)
  (request : list (string * json)) : M (list (string * json)) :=
  try_except_M
    (let user_id := dict_lookup request "user_id" in
     let topic :=
       match dict_lookup request "topic" with
       | Some value => value
       | None => JStr "climate change"
       end in
     (user <- match user_id with
              | Some value =>
                  if truthy value then users_find_one_by fr w value else ret None
              | None => ret None
              end ;;
      let ai_prompt :=
        match user with
        | Some doc => personal_prompt fr topic doc
        | None => general_prompt fr topic
        end in
      response <- lift (generate_ai_content w ai_prompt learning_system_message) ;;
      match json_loads rt response with
      | Some content => ret [("learning_content", content)]
      | None => ret [("error", JStr "Failed to generate structured learning content")]
      end)%handler)
    (fun e => raise (HTTPException 500 "Learning content generation failed")).

(** ** More vocabulary *)

(** The same world with another primary provider. *)
Definition with_groq_create (w : World)
  (create : string -> ChatRequest -> result (option string)) : World :=
  {| environ := environ w;
     groq_create := create;
     gemini_generate_content := gemini_generate_content w;
     uuid4 := uuid4 w;
     utcnow := utcnow w;
     store_fault := store_fault w |}.

(** The same world with another secondary provider. *)
Definition with_gemini (w : World)
  (generate : string -> string -> string -> result string) : World :=
  {| environ := environ w;
     groq_create := groq_create w;
     gemini_generate_content := generate;
     uuid4 := uuid4 w;
     utcnow := utcnow w;
     store_fault := store_fault w |}.

(** The same world with another store health. *)
Definition with_store_fault (w : World) (fault : option exn) : World :=
  {| environ := environ w;
     groq_create := groq_create w;
     gemini_generate_content := gemini_generate_content w;
     uuid4 := uuid4 w;
     utcnow := utcnow w;
     store_fault := fault |}.

(** The guard of the outer [try] of [generate_ai_content] lets the call
    through. *)
Definition groq_configured (w : World) : bool :=
  let groq_api_key := environ w "GROQ_API_KEY" in
  negb (Py.falsy groq_api_key || is_placeholder groq_api_key "your_groq_api_key_here").

(** The text does not begin with white space. *)
Definition head_not_space (s : string) : bool :=
  match s with
  | EmptyString => true
  | String c _ => negb (Py.is_space c)
  end.

(** What the fields of a stored progress document say of each other. *)
Definition progress_consistent (doc : UserProgress.t) : Prop :=
  exists t d e w : string,
    UserProgress.daily_habits doc =
      [("transport", t); ("diet", d); ("energy", e); ("waste", w)] /\
    UserProgress.current_co2_footprint doc = daily_co2 (calculate_co2_impact t d e w) /\
    UserProgress.completed_actions doc = [] /\
    UserProgress.streak_days doc = 0%Z.

Definition user_untouched (doc : User.t) : Prop :=
  User.points doc = 0%Z /\ User.level doc = 1%Z /\ User.completed_quests doc = [].

(** ** More sample worlds *)

(** The primary provider answers with an object whose welcome message is a
    number. *)
Definition numeric_welcome : string :=
  "{" ++ dq ++ "welcome_message" ++ dq ++ ": 5}".

Definition numeric_world : World :=
  {| environ := fun name => if name =? "GROQ_API_KEY" then Some "gsk_live_key" else None;
     groq_create := fun _ _ => Return (Some numeric_welcome);
     gemini_generate_content := fun _ _ _ => Raise (ProviderError "connection refused");
     uuid4 := "16fd2706-8baf-433b-82eb-8c7fada847da";
     utcnow := 1730764800;
     store_fault := None |}.

(** A decoder that knows three texts. *)
Definition small_runtime : Runtime :=
  {| json_loads := fun text =>
       if text =? numeric_welcome then Some (JDict [("welcome_message", JInt 5)])
       else if text =? "5" then Some (JInt 5)
       else if text =? "[]" then Some (JList [])
       else None;
     validate_str := fun _ => None;
     unicode_title := fun text => text |}.

Definition strict_foreign : Foreign :=
  {| query_users := fun _ _ => Raise (StoreError "unknown operator");
     str_of_json := fun _ => "None" |}.

(** The primary provider answers every prompt with the text [5]. *)
Definition scalar_world : World :=
  with_groq_create numeric_world (fun _ _ => Return (Some "5")).

(** Only the secondary provider is configured. *)
Definition gemini_only_world : World :=
  {| environ := fun name =>
       if name =? "GEMINI_API_KEY" then Some "AIzaSy-live-key" else None;
     groq_create := fun _ _ => Raise (ProviderError "connection refused");
     gemini_generate_content := fun _ _ _ => Return (" Ride a bike. ");
     uuid4 := "16fd2706-8baf-433b-82eb-8c7fada847da";
     utcnow := 1730764800;
     store_fault := None |}.

Definition down_store_world : World :=
  with_store_fault offline_world (Some (StoreError "connection refused")).

Definition city_request : LocalActionRequest.t :=
  {| LocalActionRequest.location := "Lisbon";
     LocalActionRequest.interests := ["oceans"; "waste"] |}.

(** A decoded number, boolean or [None]. *)
Definition is_scalar (value : json) : bool :=
  match value with
  | JNull => true
  | JBool _ => true
  | JInt _ => true
  | JFloat _ => true
  | JStr _ => false
  | JList _ => false
  | JDict _ => false
  end.

(** Whether the request body of [get_learning_content] names a user. *)
Definition names_user (request : list (string * json)) : bool :=
  match dict_lookup request "user_id" with
  | Some value => truthy value
  | None => false
  end.

Definition topic_of (request : list (string * json)) : json :=
  match dict_lookup request "topic" with
  | Some value => value
  | None => JStr "climate change"
  end.

(** What [get_learning_content] makes of the generator's answer. *)
Definition learning_reply (rt : Runtime) (response : string) : list (string * json) :=
  match json_loads rt response with
  | Some content => [("learning_content", content)]
  | None => [("error", JStr "Failed to generate structured learning content")]
  end.

(** A server started with the placeholder as secondary key and no primary
    key. *)
Definition placeholder_world : World :=
  {| environ := fun name =>
       if name =? "MONGO_URL" then Some "mongodb://localhost:27017"
       else if name =? "DB_NAME" then Some "ecoquest"
       else if name =? "GEMINI_API_KEY" then Some "your_gemini_api_key_here"
       else None;
     groq_create := fun _ _ => Raise (ProviderError "connection refused");
     gemini_generate_content := fun _ _ _ => Raise (ProviderError "connection refused");
     uuid4 := "16fd2706-8baf-433b-82eb-8c7fada847da";
     utcnow := 1730764800;
     store_fault := None |}.

(** The primary provider answers every prompt with the empty object. *)
Definition empty_object_world : World :=
  with_groq_create numeric_world (fun _ _ => Return (Some "{}")).

(** ** Samples beyond ASCII *)

(** U+00A0, the no-break space, and U+3000, the ideographic space. *)
Definition nbsp : string :=
  String (ascii_of_N 194) (String (ascii_of_N 160) EmptyString).

Definition ideographic_space : string :=
  String (ascii_of_N 227) (String (ascii_of_N 128) (String (ascii_of_N 128) EmptyString)).

(** The primary provider pads its answer with those two characters. *)
Definition wide_padded_world : World :=
  with_groq_create padded_world
    (fun _ _ => Return (Some (nbsp ++ "Plant a tree." ++ ideographic_space))).

(** The secondary provider does. *)
Definition gemini_wide_world : World :=
  with_gemini gemini_only_world
    (fun _ _ _ => Return (ideographic_space ++ "Ride a bike." ++ nbsp)).

(** A runtime whose case table knows one word. *)
Definition energie_runtime : Runtime :=
  {| json_loads := json_loads strict_runtime;
     validate_str := validate_str strict_runtime;
     unicode_title := fun text => if text =? "énergie" then "Énergie" else text |}.

Definition energie_request : OnboardingRequest.t :=
  {| OnboardingRequest.age := 16;
     OnboardingRequest.interests := ["énergie"; "oceans"];
     OnboardingRequest.knowledge_level := "beginner";
     OnboardingRequest.learning_style := "visual";
     OnboardingRequest.location := None |}.

(** * Properties *)

(** ** Python built-ins *)

Lemma dict_get_candidates (V : Type) (d : list (string * V)) (key : string) (default : V) :
  In (Py.dict_get d key default) (default :: Py.values d).
Proof.
  induction d as [| [k v] rest IH]; simpl.
  - now left.
  - destruct (k =? key).
    + right; now left.
    + destruct IH as [IH | IH]; [now left | right; now right].
Qed.

Lemma dict_get_unknown (V : Type) (d : list (string * V)) (key : string) (default : V) :
  ~ In key (Py.keys d) -> Py.dict_get d key default = default.
Proof.
  induction d as [| [k v] rest IH]; simpl; intros Hnot.
  - reflexivity.
  - destruct (String.eqb_spec k key) as [-> | Hne].
    + exfalso; apply Hnot; now left.
    + apply IH; intros Hin; apply Hnot; now right.
Qed.

Lemma list_ascii_of_string_app (a b : string) :
  list_ascii_of_string (a ++ b) =
  (list_ascii_of_string a ++ list_ascii_of_string b)%list.
Proof. induction a as [| c rest IH]; simpl; [reflexivity | now rewrite IH]. Qed.

Lemma string_of_list_ascii_app (a b : list ascii) :
  string_of_list_ascii (a ++ b) = string_of_list_ascii a ++ string_of_list_ascii b.
Proof. induction a as [| c rest IH]; simpl; [reflexivity | now rewrite IH]. Qed.

Section DroppingFacts.

Variable sp1 : ascii -> bool.
Variable sp2 : ascii -> ascii -> bool.
Variable sp3 : ascii -> ascii -> ascii -> bool.

Lemma drop_split_bounded (n : nat) :
  forall l : list ascii,
    (List.length l <= n)%nat ->
    exists pre,
      l = (pre ++ Py.drop_spaces sp1 sp2 sp3 l)%list /\ Py.spaces sp1 sp2 sp3 pre.
Proof.
  induction n as [| n IH]; intros l Hlen.
  - destruct l; [| simpl in Hlen; lia].
    exists []; split; [reflexivity | constructor].
  - destruct l as [| b1 l1]; [exists []; split; [reflexivity | constructor] |].
    simpl in Hlen; simpl.
    destruct (sp1 b1) eqn:H1.
    { destruct (IH l1) as [pre [Heq Hsp]]; [lia |].
      exists (b1 :: pre); split; [simpl; f_equal; exact Heq | now constructor]. }
    destruct l1 as [| b2 l2]; [exists []; split; [reflexivity | constructor] |].
    simpl in Hlen.
    destruct (sp2 b1 b2) eqn:H2.
    { destruct (IH l2) as [pre [Heq Hsp]]; [lia |].
      exists (b1 :: b2 :: pre); split;
        [simpl; do 2 f_equal; exact Heq | now apply Py.spaces_two]. }
    destruct l2 as [| b3 l3]; [exists []; split; [reflexivity | constructor] |].
    simpl in Hlen.
    destruct (sp3 b1 b2 b3) eqn:H3.
    { destruct (IH l3) as [pre [Heq Hsp]]; [lia |].
      exists (b1 :: b2 :: b3 :: pre); split;
        [simpl; do 3 f_equal; exact Heq | now apply Py.spaces_three]. }
    exists []; split; [reflexivity | constructor].
Qed.

(** What is dropped at the front is a sequence of white-space characters. *)
Lemma drop_split (l : list ascii) :
  exists pre,
    l = (pre ++ Py.drop_spaces sp1 sp2 sp3 l)%list /\ Py.spaces sp1 sp2 sp3 pre.
Proof. exact (drop_split_bounded (List.length l) l (le_n _)). Qed.

Lemma drop_clean_bounded (n : nat) :
  forall l : list ascii,
    (List.length l <= n)%nat ->
    Py.starts_with_space sp1 sp2 sp3 (Py.drop_spaces sp1 sp2 sp3 l) = false.
Proof.
  induction n as [| n IH]; intros l Hlen.
  - destruct l; [reflexivity | simpl in Hlen; lia].
  - destruct l as [| b1 l1]; [reflexivity |].
    simpl in Hlen; simpl.
    destruct (sp1 b1) eqn:H1; [apply IH; lia |].
    destruct l1 as [| b2 l2]; [simpl; now rewrite H1 |].
    simpl in Hlen.
    destruct (sp2 b1 b2) eqn:H2; [apply IH; lia |].
    destruct l2 as [| b3 l3]; [simpl; now rewrite H1, H2 |].
    simpl in Hlen.
    destruct (sp3 b1 b2 b3) eqn:H3; [apply IH; lia |].
    simpl; now rewrite H1, H2, H3.
Qed.

(** What is left does not begin with a white-space character. *)
Lemma drop_clean (l : list ascii) :
  Py.starts_with_space sp1 sp2 sp3 (Py.drop_spaces sp1 sp2 sp3 l) = false.
Proof. exact (drop_clean_bounded (List.length l) l (le_n _)). Qed.

Lemma drop_fixed (l : list ascii) :
  Py.starts_with_space sp1 sp2 sp3 l = false -> Py.drop_spaces sp1 sp2 sp3 l = l.
Proof.
  destruct l as [| b1 [| b2 [| b3 l3]]]; simpl; intros H; try reflexivity.
  - apply orb_false_elim in H; destruct H as [H1 _]; now rewrite H1.
  - apply orb_false_elim in H; destruct H as [H1 H].
    apply orb_false_elim in H; destruct H as [H2 _]; now rewrite H1, H2.
  - apply orb_false_elim in H; destruct H as [H1 H].
    apply orb_false_elim in H; destruct H as [H2 H3]; now rewrite H1, H2, H3.
Qed.

Lemma drop_idempotent (l : list ascii) :
  Py.drop_spaces sp1 sp2 sp3 (Py.drop_spaces sp1 sp2 sp3 l) =
  Py.drop_spaces sp1 sp2 sp3 l.
Proof. apply drop_fixed, drop_clean. Qed.

(** A text that does not begin with white space has no prefix that does. *)
Lemma starts_prefix (r post : list ascii) :
  Py.starts_with_space sp1 sp2 sp3 (r ++ post) = false ->
  Py.starts_with_space sp1 sp2 sp3 r = false.
Proof.
  destruct r as [| b1 [| b2 [| b3 r3]]]; simpl; intros H; try reflexivity.
  - apply orb_false_elim in H; destruct H as [H1 _]; now rewrite H1.
  - apply orb_false_elim in H; destruct H as [H1 H].
    destruct post as [| b3 post'].
    + now rewrite H1, H.
    + apply orb_false_elim in H; destruct H as [H2 _]; now rewrite H1, H2.
  - exact H.
Qed.


Lemma spaces_app (a b : list ascii) :
  Py.spaces sp1 sp2 sp3 a -> Py.spaces sp1 sp2 sp3 b ->
  Py.spaces sp1 sp2 sp3 (a ++ b).
Proof.
  intros Ha Hb; induction Ha; simpl;
    [exact Hb | now apply Py.spaces_one | now apply Py.spaces_two
     | now apply Py.spaces_three].
Qed.

End DroppingFacts.

(** White space met from the end is white space read forwards. *)
Lemma spaces_back (l : list ascii) :
  Py.spaces Py.is_space Py.is_space2_back Py.is_space3_back l ->
  Py.spaces Py.is_space Py.is_space2 Py.is_space3 (rev l).
Proof.
  induction 1 as [| b1 l H1 Hl IH | b1 b2 l H2 Hl IH | b1 b2 b3 l H3 Hl IH]; simpl.
  - constructor.
  - apply spaces_app; [exact IH | apply Py.spaces_one; [exact H1 | constructor]].
  - rewrite <- app_assoc; simpl.
    apply spaces_app; [exact IH | apply Py.spaces_two; [exact H2 | constructor]].
  - rewrite <- !app_assoc; simpl.
    apply spaces_app; [exact IH | apply Py.spaces_three; [exact H3 | constructor]].
Qed.

Lemma lstrip_bytes_split (l : list ascii) :
  exists pre,
    l = (pre ++ Py.lstrip_bytes l)%list /\
    Py.spaces Py.is_space Py.is_space2 Py.is_space3 pre.
Proof. apply drop_split. Qed.

Lemma rstrip_bytes_split (l : list ascii) :
  exists post,
    l = (Py.rstrip_bytes l ++ post)%list /\
    Py.spaces Py.is_space Py.is_space2 Py.is_space3 post.
Proof.
  destruct (drop_split Py.is_space Py.is_space2_back Py.is_space3_back (rev l))
    as [pre [Heq Hsp]].
  exists (rev pre); split; [| now apply spaces_back].
  unfold Py.rstrip_bytes.
  rewrite <- (rev_involutive l) at 1; rewrite Heq at 1.
  apply rev_app_distr.
Qed.

Lemma strip_bytes (s : string) :
  Py.strip s =
  string_of_list_ascii (Py.rstrip_bytes (Py.lstrip_bytes (list_ascii_of_string s))).
Proof.
  unfold Py.strip, Py.rstrip, Py.lstrip.
  now rewrite list_ascii_of_string_of_list_ascii.
Qed.

(** [strip] removes white space at the two ends and nothing else. *)
Lemma strip_split (s : string) :
  exists pre post,
    s = pre ++ Py.strip s ++ post /\ Py.blank pre /\ Py.blank post.
Proof.
  destruct (lstrip_bytes_split (list_ascii_of_string s)) as [pre [Hpre Hsp1]].
  destruct (rstrip_bytes_split (Py.lstrip_bytes (list_ascii_of_string s)))
    as [post [Hpost Hsp2]].
  exists (string_of_list_ascii pre), (string_of_list_ascii post).
  unfold Py.blank; rewrite !list_ascii_of_string_of_list_ascii.
  split; [| split; assumption].
  rewrite strip_bytes, <- !string_of_list_ascii_app, <- Hpost, <- Hpre.
  symmetry; apply string_of_list_ascii_of_string.
Qed.

(** ** Floats as rationals *)

Lemma withinb_sound (tol : Q) (x : float) (k : Q) (y : float) :
  withinb tol x k y = true -> within tol x k y.
Proof.
  unfold withinb, within.
  destruct (Q_of_float x) as [a |]; [| discriminate].
  destruct (Q_of_float y) as [b |]; [| discriminate].
  intros H; exists a, b; repeat split.
  now apply Qle_bool_iff.
Qed.

Lemma float_neq_by_eqb (x y : float) :
  (x =? y)%float = false -> (y =? y)%float = true -> x <> y.
Proof. intros Hxy Hyy Heq; rewrite Heq in Hxy; congruence. Qed.

(** ** Impact estimator *)

Lemma daily_is_sum_of_contributions (t d e w : string) :
  daily_co2 (calculate_co2_impact t d e w) =
  (contribution Transport t + contribution Diet d +
   contribution Energy e + contribution Waste w)%float.
Proof. reflexivity. Qed.

Lemma daily_in_all_daily (t d e w : string) :
  In (daily_co2 (calculate_co2_impact t d e w)) all_daily.
Proof.
  rewrite daily_is_sum_of_contributions; unfold all_daily.
  apply in_flat_map; exists (contribution Transport t); split;
    [apply dict_get_candidates |].
  apply in_flat_map; exists (contribution Diet d); split;
    [apply dict_get_candidates |].
  apply in_flat_map; exists (contribution Energy e); split;
    [apply dict_get_candidates |].
  apply in_map_iff; exists (contribution Waste w); split;
    [reflexivity | apply dict_get_candidates].
Qed.

(** A check that passes on each possible daily value holds of every call. *)
Lemma by_enumeration (check : float -> bool) :
  forallb check all_daily = true ->
  forall t d e w, check (daily_co2 (calculate_co2_impact t d e w)) = true.
Proof.
  intros Hall t d e w.
  rewrite forallb_forall in Hall; apply Hall, daily_in_all_daily.
Qed.

Lemma lookup_of_item (c : category) (value : string) (coefficient : float) :
  In (value, coefficient) (table c) -> contribution c value = coefficient.
Proof.
  unfold contribution.
  destruct c; simpl; intros H;
    repeat (destruct H as [H | H]; [inversion H; subst; reflexivity |]);
    contradiction.
Qed.

(** C4: for values of the four tables, [daily_co2] is the sum of the four
    listed coefficients; ("car","meat","high","high") gives 26.0 and
    ("bike","vegan","low","minimal") gives 5.8. *)
Theorem daily_co2_is_table_sum (t d e w : string) (ct cd ce cw : float) :
  In (t, ct) [("car", 6.5); ("bike", 0.0); ("walk", 0.0); ("public", 2.1)]%float ->
  In (d, cd) [("meat", 7.2); ("vegetarian", 3.8); ("vegan", 2.9);
              ("pescatarian", 4.1)]%float ->
  In (e, ce) [("low", 2.1); ("medium", 4.8); ("high", 8.2)]%float ->
  In (w, cw) [("minimal", 0.8); ("average", 2.3); ("high", 4.1)]%float ->
  daily_co2 (calculate_co2_impact t d e w) = (ct + cd + ce + cw)%float /\
  daily_co2 (calculate_co2_impact "car" "meat" "high" "high") = 26.0%float /\
  daily_co2 (calculate_co2_impact "bike" "vegan" "low" "minimal") = 5.8%float.
Proof.
  intros Ht Hd He Hw.
  split; [| split; reflexivity].
  rewrite daily_is_sum_of_contributions.
  rewrite (lookup_of_item Transport t ct Ht), (lookup_of_item Diet d cd Hd),
          (lookup_of_item Energy e ce He), (lookup_of_item Waste w cw Hw).
  reflexivity.
Qed.

Lemma daily_co2_is_table_sum_witness :
  daily_co2 (calculate_co2_impact "public" "pescatarian" "medium" "average")
  = (2.1 + 4.1 + 4.8 + 2.3)%float.
Proof.
  apply (daily_co2_is_table_sum "public" "pescatarian" "medium" "average"
           2.1%float 4.1%float 4.8%float 2.3%float); simpl; tauto.
Defined.

(** C5, as the code has it: a value outside a category's table contributes
    that category's fixed default (6.5, 7.2, 4.8, 2.3), which is never zero;
    the default is the largest coefficient for transport and diet and the
    middle one for energy usage and waste habits. *)
Theorem unknown_value_contributes_default (c : category) (value : string) :
  ~ In value (Py.keys (table c)) ->
  contribution c value = default_coefficient c /\
  (contribution c value =? 0)%float = false /\
  contribution Transport "hoverboard" = 6.5%float /\
  default_coefficient Transport = largest (Py.values transport_values) /\
  default_coefficient Diet = largest (Py.values diet_values) /\
  default_coefficient Energy = contribution Energy "medium" /\
  default_coefficient Waste = contribution Waste "average" /\
  (forall t d e w,
     daily_co2 (calculate_co2_impact t d e w) =
     (contribution Transport t + contribution Diet d +
      contribution Energy e + contribution Waste w)%float).
Proof.
  intros Hunknown.
  assert (Hdef : contribution c value = default_coefficient c)
    by (apply dict_get_unknown; exact Hunknown).
  split; [exact Hdef |].
  split; [rewrite Hdef; destruct c; reflexivity |].
  repeat split; reflexivity.
Qed.

Lemma unknown_value_contributes_default_witness :
  contribution Waste "landfill" = default_coefficient Waste.
Proof.
  apply (unknown_value_contributes_default Waste "landfill").
  simpl; intros [H | [H | [H | H]]]; try discriminate H; exact H.
Defined.

(** C5, as stated, fails: an unknown energy value contributes 4.8 while the
    largest energy coefficient is 8.2, so the estimate for
    ("bike","vegan","hoverboard","minimal") is not the worst-case one. *)
Lemma worst_case_substitution_fails :
  ~ (forall (c : category) (value : string),
       ~ In value (Py.keys (table c)) ->
       contribution c value = largest (Py.values (table c))) /\
  largest (Py.values energy_values) = 8.2%float /\
  daily_co2 (calculate_co2_impact "bike" "vegan" "hoverboard" "minimal")
    = (0.0 + 2.9 + 4.8 + 0.8)%float /\
  daily_co2 (calculate_co2_impact "bike" "vegan" "hoverboard" "minimal")
    <> (0.0 + 2.9 + 8.2 + 0.8)%float.
Proof.
  split; [| split; [reflexivity | split; [reflexivity |]]].
  - intros Hclaim.
    assert (Hunknown : ~ In "hoverboard" (Py.keys (table Energy)))
      by (simpl; intros [H | [H | [H | H]]]; try discriminate H; exact H).
    specialize (Hclaim Energy "hoverboard" Hunknown).
    revert Hclaim; apply float_neq_by_eqb; reflexivity.
  - apply float_neq_by_eqb; reflexivity.
Qed.

Lemma suggestions_as_concatenation (t d e w : string) :
  generate_suggestions t d e w =
    ((if t =? "car" then [suggest_transport] else []) ++
     (if d =? "meat" then [suggest_diet] else []) ++
     (if e =? "high" then [suggest_energy] else []) ++
     (if w =? "high" then [suggest_waste] else []))%list.
Proof.
  unfold generate_suggestions, append.
  destruct (t =? "car"), (d =? "meat"), (e =? "high"), (w =? "high"); reflexivity.
Qed.

Lemma in_optional_entry (emit : bool) (text s : string) :
  In s (if emit then [text] else []) <-> emit = true /\ text = s.
Proof.
  destruct emit; simpl; split; intros H.
  - destruct H as [H | []]; now split.
  - left; apply H.
  - contradiction.
  - destruct H; discriminate.
Qed.

Lemma in_suggestions (t d e w s : string) :
  In s (generate_suggestions t d e w) <->
  (t = "car" /\ suggest_transport = s) \/ (d = "meat" /\ suggest_diet = s) \/
  (e = "high" /\ suggest_energy = s) \/ (w = "high" /\ suggest_waste = s).
Proof.
  rewrite suggestions_as_concatenation, !in_app_iff, !in_optional_entry, !String.eqb_eq.
  tauto.
Qed.

Ltac distinct_texts :=
  match goal with
  | H : _ = _ :> string |- _ =>
      apply String.eqb_eq in H; vm_compute in H; discriminate H
  end.

(** C6: a suggestion is emitted for a category exactly when its value is
    "car", "meat", "high", "high" respectively; the result lists the emitted
    suggestions in the order transport, diet, energy, waste, has at most
    four entries, and each entry is one of four constant texts. *)
Theorem suggestions_follow_the_rules (t d e w : string) :
  generate_suggestions t d e w =
    ((if t =? "car" then [suggest_transport] else []) ++
     (if d =? "meat" then [suggest_diet] else []) ++
     (if e =? "high" then [suggest_energy] else []) ++
     (if w =? "high" then [suggest_waste] else []))%list /\
  (In suggest_transport (generate_suggestions t d e w) <-> t = "car") /\
  (In suggest_diet (generate_suggestions t d e w) <-> d = "meat") /\
  (In suggest_energy (generate_suggestions t d e w) <-> e = "high") /\
  (In suggest_waste (generate_suggestions t d e w) <-> w = "high") /\
  (0 <= List.length (generate_suggestions t d e w) <= 4)%nat /\
  (forall s, In s (generate_suggestions t d e w) ->
     In s [suggest_transport; suggest_diet; suggest_energy; suggest_waste]).
Proof.
  split; [apply suggestions_as_concatenation |].
  repeat match goal with |- (_ <-> _) /\ _ => split end.
  1-4: rewrite in_suggestions; split;
    [ intros [[H1 H2] | [[H1 H2] | [[H1 H2] | [H1 H2]]]];
      first [exact H1 | distinct_texts]
    | intros H; tauto ].
  split.
  - rewrite suggestions_as_concatenation.
    destruct (t =? "car"), (d =? "meat"), (e =? "high"), (w =? "high");
      simpl; lia.
  - intros s; rewrite in_suggestions; simpl.
    intros [[_ H] | [[_ H] | [[_ H] | [_ H]]]]; tauto.
Qed.

(** C7: for every four strings, [weekly_co2] is the float product of
    [daily_co2] by 7 and [yearly_co2] by 365, and both are within 0.1 of
    the exact products of the value of [daily_co2]. *)
Theorem weekly_and_yearly_scale_daily (t d e w : string) :
  let impact := calculate_co2_impact t d e w in
  weekly_co2 impact = (daily_co2 impact * 7)%float /\
  yearly_co2 impact = (daily_co2 impact * 365)%float /\
  within (1 # 10) (weekly_co2 impact) 7 (daily_co2 impact) /\
  within (1 # 10) (yearly_co2 impact) 365 (daily_co2 impact).
Proof.
  cbv zeta.
  split; [reflexivity | split; [reflexivity | split]].
  - apply withinb_sound.
    apply (by_enumeration (fun daily => withinb (1 # 10) (daily * 7)%float 7 daily)).
    vm_compute; reflexivity.
  - apply withinb_sound.
    apply (by_enumeration (fun daily => withinb (1 # 10) (daily * 365)%float 365 daily)).
    vm_compute; reflexivity.
Qed.

(** ** Content generator *)

Lemma generate_ai_content_returns (w : World) (prompt system_message : string) :
  exists text, generate_ai_content w prompt system_message = Return text.
Proof.
  unfold generate_ai_content, try_except, bind.
  destruct (groq_attempt w prompt system_message) as [text | e].
  - now exists text.
  - destruct (gemini_attempt w prompt system_message) as [[content |] | e'];
      eexists; reflexivity.
Qed.

Lemma gemini_skipped (w : World) (prompt system_message : string) :
  gemini_configured w = false ->
  gemini_attempt w prompt system_message = Return None.
Proof.
  unfold gemini_attempt; intros Hoff.
  destruct (environ w "GEMINI_API_KEY"); [now rewrite Hoff | reflexivity].
Qed.

(** C2: the content generator returns a text for every world, prompt and
    system message; when the primary attempt raises and the secondary one
    raises or is skipped for want of a credential, the text is the fixed
    degraded-service string. *)
Theorem generate_ai_content_never_raises (w : World) (prompt system_message : string) :
  (exists text, generate_ai_content w prompt system_message = Return text) /\
  ((exists e, groq_attempt w prompt system_message = Raise e) ->
   (gemini_configured w = false \/
    exists e, gemini_attempt w prompt system_message = Raise e) ->
   generate_ai_content w prompt system_message = Return error_msg).
Proof.
  split; [apply generate_ai_content_returns |].
  intros [e He] Hsecond.
  unfold generate_ai_content; rewrite He; simpl.
  destruct Hsecond as [Hoff | [e' He']].
  - now rewrite (gemini_skipped w prompt system_message Hoff).
  - now rewrite He'.
Qed.

Lemma generate_ai_content_never_raises_witness :
  generate_ai_content offline_world "What if everyone cycled to work?"
    default_system_message = Return error_msg.
Proof.
  apply (generate_ai_content_never_raises offline_world
           "What if everyone cycled to work?" default_system_message).
  - exists (ValueError "Groq API key not configured properly"); reflexivity.
  - left; reflexivity.
Defined.

Lemma groq_attempt_success (w : World) (prompt system_message key text : string) :
  environ w "GROQ_API_KEY" = Some key ->
  key <> "" ->
  key <> "your_groq_api_key_here" ->
  groq_create w key (groq_request prompt system_message) = Return (Some text) ->
  groq_attempt w prompt system_message = Return (Py.strip text).
Proof.
  intros Henv Hne Hph Hcreate.
  unfold groq_attempt, groq_request in *; rewrite Henv; simpl.
  apply String.eqb_neq in Hne, Hph; rewrite Hne, Hph; simpl.
  destruct (Py.contains _ _); rewrite Hcreate; reflexivity.
Qed.

(** C3, as the code has it: when the primary provider answers with text
    [text], the generator returns [text.strip()]: the answer without the
    white-space characters, of ASCII or beyond, at its two ends, otherwise
    unchanged and not truncated. *)
Theorem primary_text_is_returned_stripped
  (w : World) (prompt system_message key text : string) :
  environ w "GROQ_API_KEY" = Some key ->
  key <> "" ->
  key <> "your_groq_api_key_here" ->
  groq_create w key (groq_request prompt system_message) = Return (Some text) ->
  generate_ai_content w prompt system_message = Return (Py.strip text) /\
  exists pre post,
    text = pre ++ Py.strip text ++ post /\ Py.blank pre /\ Py.blank post.
Proof.
  intros Henv Hne Hph Hcreate; split.
  - unfold generate_ai_content.
    now rewrite (groq_attempt_success w prompt system_message key text).
  - apply strip_split.
Qed.

Lemma primary_text_is_returned_stripped_witness :
  generate_ai_content padded_world "What if everyone cycled to work?"
    default_system_message = Return "Plant a tree." /\
  generate_ai_content wide_padded_world "What if everyone cycled to work?"
    default_system_message = Return "Plant a tree.".
Proof.
  split.
  - apply (primary_text_is_returned_stripped padded_world
             "What if everyone cycled to work?" default_system_message
             "gsk_live_key" ("  Plant a tree." ++ nl)).
    + reflexivity.
    + discriminate.
    + discriminate.
    + reflexivity.
  - apply (primary_text_is_returned_stripped wide_padded_world
             "What if everyone cycled to work?" default_system_message
             "gsk_live_key" (nbsp ++ "Plant a tree." ++ ideographic_space)).
    + reflexivity.
    + discriminate.
    + discriminate.
    + reflexivity.
Defined.

(** C3, as stated, fails: a primary answer with white space at its ends
    does not come back as it is. *)
Lemma primary_text_not_returned_verbatim :
  ~ (forall (w : World) (prompt system_message key text : string),
       environ w "GROQ_API_KEY" = Some key ->
       key <> "" ->
       key <> "your_groq_api_key_here" ->
       groq_create w key (groq_request prompt system_message) = Return (Some text) ->
       generate_ai_content w prompt system_message = Return text).
Proof.
  intros Hclaim.
  specialize (Hclaim padded_world "What if everyone cycled to work?"
                default_system_message "gsk_live_key" ("  Plant a tree." ++ nl)).
  assert (H : generate_ai_content padded_world "What if everyone cycled to work?"
                default_system_message = Return ("  Plant a tree." ++ nl)).
  { apply Hclaim; [reflexivity | discriminate | discriminate | reflexivity]. }
  vm_compute in H; discriminate H.
Qed.

(** ** Handlers: what a call does to the store and what it returns *)

Lemma complete_onboarding_store_down (rt : Runtime) (w : World)
  (request : OnboardingRequest.t) (db : DB) (e : exn) :
  store_fault w = Some e ->
  complete_onboarding rt w request db =
    (Raise (HTTPException 500 "Onboarding failed"), db).
Proof.
  intros Hfault.
  unfold complete_onboarding, try_except_M, mbind, users_insert_one, store_call, raise.
  now rewrite Hfault.
Qed.

Lemma complete_onboarding_store_up (rt : Runtime) (w : World)
  (request : OnboardingRequest.t) (db : DB) (ai_response : string) :
  store_fault w = None ->
  generate_ai_content w (onboarding_prompt request) onboarding_system_message
    = Return ai_response ->
  complete_onboarding rt w request db =
    let db' := {| users := (users db ++ [new_user w request])%list;
                  user_progress := user_progress db |} in
    let personalized_path := parse_path rt request ai_response in
    match welcome_of rt personalized_path with
    | Return welcome_message =>
        (Return {| OnboardingResponse.user_id := uuid4 w;
                   OnboardingResponse.personalized_path := personalized_path;
                   OnboardingResponse.welcome_message := welcome_message |}, db')
    | Raise _ => (Raise (HTTPException 500 "Onboarding failed"), db')
    end.
Proof.
  intros Hfault Hai.
  unfold complete_onboarding, try_except_M, mbind, users_insert_one, store_call,
    lift, ret, raise.
  rewrite Hfault.
  unfold onboarding_system_message in Hai; rewrite Hai.
  cbv zeta.
  destruct (welcome_of rt (parse_path rt request ai_response)); reflexivity.
Qed.

Lemma complete_onboarding_keeps_progress (rt : Runtime) (w : World)
  (request : OnboardingRequest.t) (db : DB) :
  user_progress (snd (complete_onboarding rt w request db)) = user_progress db.
Proof.
  destruct (store_fault w) as [e |] eqn:Hfault.
  - now rewrite (complete_onboarding_store_down rt w request db e Hfault).
  - destruct (generate_ai_content_returns w (onboarding_prompt request)
                onboarding_system_message) as [ai_response Hai].
    rewrite (complete_onboarding_store_up rt w request db ai_response Hfault Hai).
    cbv zeta.
    destruct (welcome_of rt (parse_path rt request ai_response)); reflexivity.
Qed.

Lemma calculate_impact_store_down (w : World) (request : HabitInput.t) (db : DB) (e : exn) :
  store_fault w = Some e ->
  calculate_impact w request db =
    (Raise (HTTPException 500 "Impact calculation failed"), db).
Proof.
  intros Hfault.
  unfold calculate_impact, try_except_M, mbind, lift, user_progress_replace_one,
    store_call, raise.
  destruct (generate_ai_content_returns w
              (impact_prompt (calculate_co2_impact
                 (HabitInput.transport request) (HabitInput.diet request)
                 (HabitInput.energy_usage request) (HabitInput.waste_habits request)))
              default_system_message) as [text Htext].
  cbv zeta; rewrite Htext, Hfault; reflexivity.
Qed.

Lemma calculate_impact_store_up (w : World) (request : HabitInput.t) (db : DB) :
  store_fault w = None ->
  exists positive_impact,
    calculate_impact w request db =
      (let impact_data :=
         calculate_co2_impact
           (HabitInput.transport request) (HabitInput.diet request)
           (HabitInput.energy_usage request) (HabitInput.waste_habits request) in
       Return {| ImpactSimulation.daily_co2 := daily_co2 impact_data;
                 ImpactSimulation.weekly_co2 := weekly_co2 impact_data;
                 ImpactSimulation.yearly_co2 := yearly_co2 impact_data;
                 ImpactSimulation.suggestions :=
                   generate_suggestions
                     (HabitInput.transport request) (HabitInput.diet request)
                     (HabitInput.energy_usage request) (HabitInput.waste_habits request);
                 ImpactSimulation.positive_impact := positive_impact |},
       {| users := users db;
          user_progress :=
            upsert (user_progress db) (HabitInput.user_id request)
                   (fresh_progress w request) |}).
Proof.
  intros Hfault.
  destruct (generate_ai_content_returns w
              (impact_prompt (calculate_co2_impact
                 (HabitInput.transport request) (HabitInput.diet request)
                 (HabitInput.energy_usage request) (HabitInput.waste_habits request)))
              default_system_message) as [text Htext].
  exists text.
  unfold calculate_impact, try_except_M, mbind, lift, user_progress_replace_one,
    store_call, ret.
  cbv zeta; rewrite Htext, Hfault; reflexivity.
Qed.

(** ** The progress collection holds one document per user *)

Lemma replace_first_keys (docs docs' : list UserProgress.t) (doc : UserProgress.t) :
  replace_first docs (UserProgress.user_id doc) doc = Some docs' ->
  map UserProgress.user_id docs' = map UserProgress.user_id docs.
Proof.
  revert docs'; induction docs as [| d rest IH]; simpl; intros docs' H.
  - discriminate.
  - destruct (String.eqb_spec (UserProgress.user_id d) (UserProgress.user_id doc))
      as [Heq | Hne].
    + inversion H; subst; simpl; now rewrite Heq.
    + destruct (replace_first rest (UserProgress.user_id doc) doc) as [rest' |];
        [| discriminate].
      inversion H; subst; simpl; f_equal; now apply IH.
Qed.

Lemma replace_first_none (docs : list UserProgress.t) (user_id : string)
  (doc : UserProgress.t) :
  replace_first docs user_id doc = None ->
  ~ In user_id (map UserProgress.user_id docs).
Proof.
  induction docs as [| d rest IH]; simpl; intros H.
  - tauto.
  - destruct (String.eqb_spec (UserProgress.user_id d) user_id) as [Heq | Hne];
      [discriminate |].
    destruct (replace_first rest user_id doc); [discriminate |].
    intros [Hd | Hin]; [contradiction | now apply IH].
Qed.

Lemma filter_absent (docs : list UserProgress.t) (user_id : string) :
  ~ In user_id (map UserProgress.user_id docs) ->
  filter (fun d => UserProgress.user_id d =? user_id) docs = [].
Proof.
  induction docs as [| d rest IH]; simpl; intros H; [reflexivity |].
  destruct (String.eqb_spec (UserProgress.user_id d) user_id) as [Heq | Hne].
  - exfalso; apply H; now left.
  - apply IH; intros Hin; apply H; now right.
Qed.

Lemma nodup_snoc (A : Type) (l : list A) (x : A) :
  ~ In x l -> NoDup l -> NoDup (l ++ [x]).
Proof.
  induction l as [| y rest IH]; simpl; intros Hnotin Hnd.
  - constructor; [tauto | constructor].
  - inversion Hnd as [| z zs Hy Hrest]; subst.
    constructor.
    + rewrite in_app_iff; simpl; intros [Hin | [Heq | []]]; [tauto |].
      apply Hnotin; left; symmetry; exact Heq.
    + apply IH; [tauto | exact Hrest].
Qed.

Lemma upsert_keys_nodup (docs : list UserProgress.t) (doc : UserProgress.t) :
  NoDup (map UserProgress.user_id docs) ->
  NoDup (map UserProgress.user_id (upsert docs (UserProgress.user_id doc) doc)).
Proof.
  intros Hnd; unfold upsert.
  destruct (replace_first docs (UserProgress.user_id doc) doc) as [docs' |] eqn:Hr.
  - now rewrite (replace_first_keys docs docs' doc Hr).
  - rewrite map_app; simpl.
    apply nodup_snoc; [| exact Hnd].
    exact (replace_first_none docs _ doc Hr).
Qed.


(** Reachable stores never hold two progress documents for one user. *)
Lemma reachable_progress_keys_nodup (rt : Runtime) (db : DB) :
  reachable rt db -> NoDup (progress_keys db).
Proof.
  unfold progress_keys; induction 1 as [| db w request Hreach IH | db w request Hreach IH].
  - constructor.
  - now rewrite complete_onboarding_keeps_progress.
  - destruct (store_fault w) as [e |] eqn:Hfault.
    + now rewrite (calculate_impact_store_down w request db e Hfault).
    + destruct (calculate_impact_store_up w request db Hfault) as [text Heq].
      rewrite Heq; simpl.
      apply (upsert_keys_nodup (user_progress db) (fresh_progress w request) IH).
Qed.



(** [get_user] returns the stored user when the lookup finds one and raises
    the internal error 500 in every other case: the 404 it raises for a
    missing user is caught by its own [except] clause. *)
Lemma get_user_outcomes (w : World) (user_id : string) (db : DB) :
  get_user w user_id db =
    match store_fault w, find_user (users db) user_id with
    | None, Some doc => (Return doc, db)
    | _, _ => (Raise (HTTPException 500 "Failed to retrieve user"), db)
    end.
Proof.
  unfold get_user, try_except_M, mbind, users_find_one, store_call, raise, ret.
  destruct (store_fault w); [reflexivity |].
  destruct (find_user (users db) user_id); reflexivity.
Qed.

(** C1, evaluated on the code: looking up an identifier that was never
    inserted ends in the internal error 500, not in the not-found signal
    the handler raises first. *)
Theorem get_user_missing_is_internal_error :
  get_user offline_world "0b0e7a52-never-inserted" empty_db =
    (Raise (HTTPException 500 "Failed to retrieve user"), empty_db) /\
  fst (get_user offline_world "0b0e7a52-never-inserted" empty_db) <>
    Raise (HTTPException 404 "User not found").
Proof.
  split; [reflexivity | discriminate].
Qed.

(** ** Onboarding fallback *)

Lemma parse_path_invalid (rt : Runtime) (request : OnboardingRequest.t)
  (ai_response : string) :
  json_loads rt ai_response = None ->
  parse_path rt request ai_response = fallback_path rt request.
Proof. unfold parse_path; now intros ->. Qed.

Lemma onboarding_falls_back (rt : Runtime) (w : World)
  (request : OnboardingRequest.t) (db : DB) (ai_response : string) :
  store_fault w = None ->
  generate_ai_content w (onboarding_prompt request) onboarding_system_message
    = Return ai_response ->
  json_loads rt ai_response = None ->
  exists welcome,
    dict_lookup (fallback_path rt request) "welcome_message" = Some (JStr welcome) /\
    complete_onboarding rt w request db =
      (Return {| OnboardingResponse.user_id := uuid4 w;
                 OnboardingResponse.personalized_path := fallback_path rt request;
                 OnboardingResponse.welcome_message := welcome |},
       {| users := (users db ++ [new_user w request])%list;
          user_progress := user_progress db |}).
Proof.
  intros Hfault Hai Hjson.
  rewrite (complete_onboarding_store_up rt w request db ai_response Hfault Hai).
  cbv zeta; rewrite (parse_path_invalid rt request ai_response Hjson).
  eexists; split; reflexivity.
Qed.

(** C8, as the code has it: with a first interest, a healthy store and
    generator output that is not valid JSON, onboarding returns the static
    fallback: the five module titles in order, the second built from
    [first.title()] for the first interest (computed when it is ASCII text,
    the runtime's when it is not), the fixed [first_quest] and [daily_tip],
    and a welcome message built around the first two interests joined by
    a comma and a space. *)
Theorem onboarding_fallback_with_interests (rt : Runtime) (w : World)
  (request : OnboardingRequest.t) (db : DB)
  (first : string) (others : list string) (ai_response : string) :
  OnboardingRequest.interests request = first :: others ->
  store_fault w = None ->
  generate_ai_content w (onboarding_prompt request) onboarding_system_message
    = Return ai_response ->
  json_loads rt ai_response = None ->
  exists response,
    fst (complete_onboarding rt w request db) = Return response /\
    OnboardingResponse.personalized_path response =
      static_fallback (Py.join ", " (firstn 2 (first :: others)))
                      (str_title rt first ++ " Deep Dive") /\
    module_titles (OnboardingResponse.personalized_path response) =
      [ Some "Climate Basics"; Some (str_title rt first ++ " Deep Dive");
        Some "Carbon Footprint"; Some "Green Solutions"; Some "Take Action" ] /\
    OnboardingResponse.welcome_message response =
      "Welcome to EcoQuest! Ready to become a climate hero? Based on your interests in "
      ++ Py.join ", " (firstn 2 (first :: others))
      ++ ", we've created an exciting journey just for you!".
Proof.
  intros Hinterests Hfault Hai Hjson.
  destruct (onboarding_falls_back rt w request db ai_response Hfault Hai Hjson)
    as [welcome [Hwelcome Hrun]].
  rewrite Hrun; simpl fst.
  unfold fallback_path in *; rewrite Hinterests in *.
  simpl in Hwelcome; inversion Hwelcome; subst welcome.
  eexists; split; [reflexivity |].
  repeat split.
Qed.

Lemma onboarding_fallback_with_interests_witness :
  (exists response,
     fst (complete_onboarding strict_runtime offline_world ocean_request empty_db)
       = Return response /\
     module_titles (OnboardingResponse.personalized_path response) =
       [ Some "Climate Basics"; Some "Oceans Deep Dive";
         Some "Carbon Footprint"; Some "Green Solutions"; Some "Take Action" ]) /\
  (exists response,
     fst (complete_onboarding energie_runtime offline_world energie_request empty_db)
       = Return response /\
     module_titles (OnboardingResponse.personalized_path response) =
       [ Some "Climate Basics"; Some "Énergie Deep Dive";
         Some "Carbon Footprint"; Some "Green Solutions"; Some "Take Action" ]).
Proof.
  split.
  - destruct (onboarding_fallback_with_interests strict_runtime offline_world
                ocean_request empty_db "oceans" ["forests"; "energy"] error_msg)
      as [response [Hret [_ [Htitles _]]]].
    + reflexivity.
    + reflexivity.
    + vm_compute; reflexivity.
    + reflexivity.
    + exists response; split; [exact Hret | exact Htitles].
  - destruct (onboarding_fallback_with_interests energie_runtime offline_world
                energie_request empty_db "énergie" ["oceans"] error_msg)
      as [response [Hret [_ [Htitles _]]]].
    + reflexivity.
    + reflexivity.
    + vm_compute; reflexivity.
    + reflexivity.
    + exists response; split; [exact Hret | exact Htitles].
Defined.

(** C8, as stated, fails: the welcome message of the fallback is not one
    fixed literal, it differs between two requests with different
    interests. *)
Lemma fallback_welcome_is_not_fixed :
  ~ (exists welcome : string,
       forall (rt : Runtime) (w : World) (request : OnboardingRequest.t) (db : DB)
              (first : string) (others : list string) (ai_response : string),
         OnboardingRequest.interests request = first :: others ->
         store_fault w = None ->
         generate_ai_content w (onboarding_prompt request) onboarding_system_message
           = Return ai_response ->
         json_loads rt ai_response = None ->
         exists response,
           fst (complete_onboarding rt w request db) = Return response /\
           dict_lookup (OnboardingResponse.personalized_path response) "welcome_message"
             = Some (JStr welcome)).
Proof.
  intros [welcome Hclaim].
  destruct (Hclaim strict_runtime offline_world ocean_request empty_db
              "oceans" ["forests"; "energy"] error_msg)
    as [r1 [Hr1 Hw1]];
    [reflexivity | reflexivity | vm_compute; reflexivity | reflexivity |].
  destruct (Hclaim strict_runtime offline_world forest_request empty_db
              "forests" [] error_msg)
    as [r2 [Hr2 Hw2]];
    [reflexivity | reflexivity | vm_compute; reflexivity | reflexivity |].
  vm_compute in Hr1; inversion Hr1; subst r1; clear Hr1.
  vm_compute in Hr2; inversion Hr2; subst r2; clear Hr2.
  vm_compute in Hw1; vm_compute in Hw2.
  rewrite <- Hw1 in Hw2; discriminate Hw2.
Qed.

(** C10: with no interest at all, a healthy store and generator output that
    is not valid JSON, onboarding still returns the fallback: its welcome
    message names "climate change and sustainability" and its second module
    is "Climate Deep Dive". *)
Theorem onboarding_fallback_without_interests (rt : Runtime) (w : World)
  (request : OnboardingRequest.t) (db : DB) (ai_response : string) :
  OnboardingRequest.interests request = [] ->
  store_fault w = None ->
  generate_ai_content w (onboarding_prompt request) onboarding_system_message
    = Return ai_response ->
  json_loads rt ai_response = None ->
  exists response,
    fst (complete_onboarding rt w request db) = Return response /\
    OnboardingResponse.personalized_path response =
      static_fallback "climate change and sustainability" "Climate Deep Dive" /\
    module_titles (OnboardingResponse.personalized_path response) =
      [ Some "Climate Basics"; Some "Climate Deep Dive";
        Some "Carbon Footprint"; Some "Green Solutions"; Some "Take Action" ] /\
    OnboardingResponse.welcome_message response =
      "Welcome to EcoQuest! Ready to become a climate hero? Based on your interests in climate change and sustainability, we've created an exciting journey just for you!".
Proof.
  intros Hinterests Hfault Hai Hjson.
  destruct (onboarding_falls_back rt w request db ai_response Hfault Hai Hjson)
    as [welcome [Hwelcome Hrun]].
  rewrite Hrun; simpl fst.
  unfold fallback_path in *; rewrite Hinterests in *.
  simpl in Hwelcome; inversion Hwelcome; subst welcome.
  eexists; split; [reflexivity |].
  repeat split.
Qed.

Lemma onboarding_fallback_without_interests_witness :
  exists response,
    fst (complete_onboarding strict_runtime offline_world no_interest_request empty_db)
      = Return response /\
    module_titles (OnboardingResponse.personalized_path response) =
      [ Some "Climate Basics"; Some "Climate Deep Dive";
        Some "Carbon Footprint"; Some "Green Solutions"; Some "Take Action" ].
Proof.
  destruct (onboarding_fallback_without_interests strict_runtime offline_world
              no_interest_request empty_db error_msg)
    as [response [Hret [_ [Htitles _]]]].
  - reflexivity.
  - reflexivity.
  - vm_compute; reflexivity.
  - reflexivity.
  - exists response; split; [exact Hret | exact Htitles].
Defined.

(** * Further properties of the code *)

(** ** Impact estimator *)

(** Every estimate lies between the best and the worst row of the tables:
    [daily_co2] is between 5.8 and 26.0, and [yearly_co2] is at most 9490. *)
Theorem daily_co2_is_bounded (t d e w : string) :
  (5.8 <=? daily_co2 (calculate_co2_impact t d e w))%float = true /\
  (daily_co2 (calculate_co2_impact t d e w) <=? 26.0)%float = true /\
  (yearly_co2 (calculate_co2_impact t d e w) <=? 9490)%float = true.
Proof.
  repeat split.
  - apply (by_enumeration (fun daily => (5.8 <=? daily)%float)); vm_compute; reflexivity.
  - apply (by_enumeration (fun daily => (daily <=? 26.0)%float)); vm_compute; reflexivity.
  - apply (by_enumeration (fun daily => (daily * 365 <=? 9490)%float));
      vm_compute; reflexivity.
Qed.

(** A transport and a diet outside the tables are counted like "car" and
    "meat" by the estimator, and advised like "bike" and "vegan" by the
    suggestions: the two functions do not agree on unknown values. *)
Theorem unknown_habits_counted_without_advice (t d e w : string) :
  ~ In t (Py.keys transport_values) ->
  ~ In d (Py.keys diet_values) ->
  calculate_co2_impact t d e w = calculate_co2_impact "car" "meat" e w /\
  generate_suggestions t d e w = generate_suggestions "bike" "vegan" e w.
Proof.
  intros Ht Hd; split.
  - unfold calculate_co2_impact.
    rewrite (dict_get_unknown _ transport_values t _ Ht),
            (dict_get_unknown _ diet_values d _ Hd).
    reflexivity.
  - assert (Htc : (t =? "car") = false)
      by (apply String.eqb_neq; intros ->; apply Ht; simpl; tauto).
    assert (Hdm : (d =? "meat") = false)
      by (apply String.eqb_neq; intros ->; apply Hd; simpl; tauto).
    rewrite !suggestions_as_concatenation, Htc, Hdm; reflexivity.
Qed.

Lemma unknown_habits_counted_without_advice_witness :
  calculate_co2_impact "Car" "Meat" "low" "minimal"
    = calculate_co2_impact "car" "meat" "low" "minimal" /\
  generate_suggestions "Car" "Meat" "low" "minimal" = [].
Proof.
  apply (unknown_habits_counted_without_advice "Car" "Meat" "low" "minimal");
    simpl; intros H; repeat (destruct H as [H | H]; [discriminate H |]); exact H.
Defined.

(** ** Python built-ins, continued *)

Lemma lower_app (a b : string) : Py.lower (a ++ b) = Py.lower a ++ Py.lower b.
Proof. induction a as [| c rest IH]; simpl; [reflexivity | now rewrite IH]. Qed.

Lemma prefix_app (needle a b : string) :
  prefix needle a = true -> prefix needle (a ++ b) = true.
Proof.
  revert a; induction needle as [| c rest IH]; intros a;
    [intros _; destruct (a ++ b); reflexivity |].
  destruct a as [| c' a']; simpl; [discriminate |].
  destruct (ascii_dec c c'); [apply IH | discriminate].
Qed.

Lemma contains_cons (needle : string) (c : ascii) (rest : string) :
  Py.contains needle (String c rest) =
  prefix needle (String c rest) || Py.contains needle rest.
Proof. reflexivity. Qed.

Lemma contains_app_l (needle a b : string) :
  Py.contains needle a = true -> Py.contains needle (a ++ b) = true.
Proof.
  induction a as [| c rest IH].
  - destruct needle; [intros _; destruct b; reflexivity | discriminate].
  - change (String c rest ++ b) with (String c (rest ++ b)).
    rewrite !contains_cons; intros H.
    apply orb_true_iff in H; destruct H as [Hp | Hc].
    + change (String c (rest ++ b)) with (String c rest ++ b).
      now rewrite (prefix_app needle (String c rest) b Hp).
    + rewrite (IH Hc); apply orb_true_r.
Qed.

Lemma contains_app_r (needle a b : string) :
  Py.contains needle b = true -> Py.contains needle (a ++ b) = true.
Proof.
  intros H; induction a as [| c rest IH]; [exact H |].
  change (String c rest ++ b) with (String c (rest ++ b)).
  rewrite contains_cons, IH; apply orb_true_r.
Qed.

(** Stripping a stripped text changes nothing. *)
Lemma strip_idempotent (s : string) : Py.strip (Py.strip s) = Py.strip s.
Proof.
  rewrite (strip_bytes (Py.strip s)), (strip_bytes s).
  rewrite list_ascii_of_string_of_list_ascii; f_equal.
  set (t := Py.lstrip_bytes (list_ascii_of_string s)).
  assert (Hclean : Py.lstrip_bytes (Py.rstrip_bytes t) = Py.rstrip_bytes t).
  { apply drop_fixed.
    destruct (rstrip_bytes_split t) as [post [Heq _]].
    apply (starts_prefix _ _ _ _ post); rewrite <- Heq.
    apply drop_clean. }
  rewrite Hclean; unfold Py.rstrip_bytes.
  now rewrite rev_involutive, drop_idempotent.
Qed.

(** A stripped text does not begin with an ASCII white-space character. *)
Lemma strip_head (s : string) : head_not_space (Py.strip s) = true.
Proof.
  rewrite strip_bytes.
  set (t := Py.lstrip_bytes (list_ascii_of_string s)).
  assert (Hclean : Py.starts_with_space Py.is_space Py.is_space2 Py.is_space3
                     (Py.rstrip_bytes t) = false).
  { destruct (rstrip_bytes_split t) as [post [Heq _]].
    apply (starts_prefix _ _ _ _ post); rewrite <- Heq.
    apply drop_clean. }
  destruct (Py.rstrip_bytes t) as [| b1 rest]; [reflexivity |].
  simpl in *; apply orb_false_elim in Hclean; destruct Hclean as [H1 _].
  now rewrite H1.
Qed.


(** ** Content generator, continued *)

Lemma groq_unconfigured_raises (w : World) (prompt system_message : string) :
  groq_configured w = false ->
  groq_attempt w prompt system_message =
    Raise (ValueError "Groq API key not configured properly").
Proof.
  unfold groq_configured, groq_attempt; intros H; apply negb_false_iff in H.
  destruct (environ w "GROQ_API_KEY"); [now rewrite H | reflexivity].
Qed.

Lemma groq_configured_calls (w : World) (prompt system_message : string) :
  groq_configured w = true ->
  exists key,
    environ w "GROQ_API_KEY" = Some key /\
    groq_attempt w prompt system_message =
      bind (groq_create w key (groq_request prompt system_message)) content_strip.
Proof.
  unfold groq_configured, groq_attempt, groq_request; intros H.
  apply negb_true_iff in H.
  destruct (environ w "GROQ_API_KEY") as [key |]; [| discriminate].
  exists key; split; [reflexivity |]; rewrite H.
  destruct (Py.contains _ _);
    destruct (groq_create w key _) as [[text |] | e]; reflexivity.
Qed.

Lemma gemini_configured_calls (w : World) (prompt system_message : string) :
  gemini_configured w = true ->
  exists key,
    environ w "GEMINI_API_KEY" = Some key /\
    gemini_attempt w prompt system_message =
      bind (gemini_generate_content w key "gemini-1.5-flash"
              (system_message ++ nl ++ nl ++ "User Query: " ++ prompt))
           (fun text =>
              Return (Some (if text =? "" then "Sorry, I couldn't generate a response."
                            else Py.strip text))).
Proof.
  intros H; unfold gemini_attempt.
  destruct (environ w "GEMINI_API_KEY") as [key |] eqn:Henv.
  - exists key; split; [reflexivity | now rewrite H].
  - unfold gemini_configured in H; rewrite Henv in H; discriminate.
Qed.

(** With no usable credential at all the generator answers every prompt
    with the degraded-service string. *)
Lemma no_credential_degrades (w : World) (prompt system_message : string) :
  groq_configured w = false ->
  gemini_configured w = false ->
  generate_ai_content w prompt system_message = Return error_msg.
Proof.
  intros Hg Hs; unfold generate_ai_content.
  rewrite (groq_unconfigured_raises w prompt system_message Hg); simpl.
  now rewrite (gemini_skipped w prompt system_message Hs).
Qed.

Lemma gemini_key_configured (w : World) (key : string) :
  environ w "GEMINI_API_KEY" = Some key ->
  key <> "" ->
  key <> "your_gemini_api_key_here" ->
  gemini_configured w = true.
Proof.
  intros Henv Hne Hph; unfold gemini_configured; rewrite Henv; simpl.
  apply String.eqb_neq in Hne, Hph; now rewrite Hne, Hph.
Qed.

(** When the primary attempt raises and the secondary provider is
    configured and answers, the generator returns the stripped answer, or
    the apology when the answer is empty: never the degraded string. *)
Theorem secondary_answer_is_returned
  (w : World) (prompt system_message key text : string) (e : exn) :
  groq_attempt w prompt system_message = Raise e ->
  environ w "GEMINI_API_KEY" = Some key ->
  key <> "" ->
  key <> "your_gemini_api_key_here" ->
  gemini_generate_content w key "gemini-1.5-flash"
    (system_message ++ nl ++ nl ++ "User Query: " ++ prompt) = Return text ->
  generate_ai_content w prompt system_message =
    Return (if text =? "" then "Sorry, I couldn't generate a response."
            else Py.strip text).
Proof.
  intros Hprimary Henv Hne Hph Hanswer.
  destruct (gemini_configured_calls w prompt system_message
              (gemini_key_configured w key Henv Hne Hph))
    as [key' [Henv' Hattempt]].
  rewrite Henv in Henv'; inversion Henv'; subst key'.
  unfold generate_ai_content; rewrite Hprimary; simpl.
  rewrite Hattempt, Hanswer; reflexivity.
Qed.

Lemma secondary_answer_is_returned_witness :
  generate_ai_content gemini_only_world "What if everyone cycled to work?"
    default_system_message = Return "Ride a bike." /\
  generate_ai_content gemini_wide_world "What if everyone cycled to work?"
    default_system_message = Return "Ride a bike.".
Proof.
  split.
  - apply (secondary_answer_is_returned gemini_only_world
             "What if everyone cycled to work?" default_system_message
             "AIzaSy-live-key" " Ride a bike. "
             (ValueError "Groq API key not configured properly")).
    + reflexivity.
    + reflexivity.
    + discriminate.
    + discriminate.
    + reflexivity.
  - apply (secondary_answer_is_returned gemini_wide_world
             "What if everyone cycled to work?" default_system_message
             "AIzaSy-live-key" (ideographic_space ++ "Ride a bike." ++ nbsp)
             (ValueError "Groq API key not configured properly")).
    + reflexivity.
    + reflexivity.
    + discriminate.
    + discriminate.
    + reflexivity.
Defined.

(** A missing, empty or placeholder primary credential means the primary
    provider is never consulted: the answer is the same whatever that
    provider would do, and the secondary provider is still tried. *)
Theorem unconfigured_primary_is_never_called
  (w : World) (create : string -> ChatRequest -> result (option string))
  (prompt system_message : string) :
  groq_configured w = false ->
  generate_ai_content (with_groq_create w create) prompt system_message =
    generate_ai_content w prompt system_message /\
  generate_ai_content w prompt system_message =
    match gemini_attempt w prompt system_message with
    | Return (Some content) => Return content
    | Return None => Return error_msg
    | Raise _ => Return error_msg
    end.
Proof.
  intros H.
  assert (H' : groq_configured (with_groq_create w create) = false) by exact H.
  unfold generate_ai_content.
  rewrite (groq_unconfigured_raises _ prompt system_message H),
          (groq_unconfigured_raises _ prompt system_message H').
  split; [reflexivity |].
  simpl; destruct (gemini_attempt w prompt system_message) as [[content |] | e];
    reflexivity.
Qed.

Lemma unconfigured_primary_is_never_called_witness :
  generate_ai_content
    (with_groq_create gemini_only_world (fun _ _ => Return (Some "ignored")))
    "What if everyone cycled to work?" default_system_message
  = generate_ai_content gemini_only_world
      "What if everyone cycled to work?" default_system_message.
Proof.
  apply (unconfigured_primary_is_never_called gemini_only_world
           (fun _ _ => Return (Some "ignored"))
           "What if everyone cycled to work?" default_system_message).
  reflexivity.
Defined.

(** When the primary attempt returns, the secondary provider is never
    consulted: the answer is the same whatever that provider would do. *)
Theorem secondary_is_not_called_after_success
  (w : World) (generate : string -> string -> string -> result string)
  (prompt system_message text : string) :
  groq_attempt w prompt system_message = Return text ->
  generate_ai_content (with_gemini w generate) prompt system_message = Return text.
Proof.
  intros H; unfold generate_ai_content.
  change (groq_attempt (with_gemini w generate) prompt system_message)
    with (groq_attempt w prompt system_message).
  now rewrite H.
Qed.

Lemma secondary_is_not_called_after_success_witness :
  generate_ai_content
    (with_gemini padded_world (fun _ _ _ => Return "ignored"))
    "What if everyone cycled to work?" default_system_message
  = Return "Plant a tree.".
Proof.
  apply (secondary_is_not_called_after_success padded_world
           (fun _ _ _ => Return "ignored")
           "What if everyone cycled to work?" default_system_message "Plant a tree.").
  reflexivity.
Defined.

(** A text that comes back from the primary provider has no white space at
    either end: stripping it again changes nothing. *)
Theorem primary_answer_is_normalised
  (w : World) (prompt system_message key text : string) :
  environ w "GROQ_API_KEY" = Some key ->
  key <> "" ->
  key <> "your_groq_api_key_here" ->
  groq_create w key (groq_request prompt system_message) = Return (Some text) ->
  exists answer,
    generate_ai_content w prompt system_message = Return answer /\
    Py.strip answer = answer /\
    head_not_space answer = true.
Proof.
  intros Henv Hne Hph Hcreate.
  exists (Py.strip text); split; [| split].
  - unfold generate_ai_content.
    now rewrite (groq_attempt_success w prompt system_message key text).
  - apply strip_idempotent.
  - apply strip_head.
Qed.

Lemma primary_answer_is_normalised_witness :
  exists answer,
    generate_ai_content padded_world "What if everyone cycled to work?"
      default_system_message = Return answer /\
    Py.strip answer = answer.
Proof.
  destruct (primary_answer_is_normalised padded_world
              "What if everyone cycled to work?" default_system_message
              "gsk_live_key" ("  Plant a tree." ++ nl))
    as [answer [Hret [Hfixed _]]].
  - reflexivity.
  - discriminate.
  - discriminate.
  - reflexivity.
  - exists answer; split; assumption.
Defined.



(** ** Which request the primary provider receives *)

(** Onboarding always asks the primary provider for a JSON object: its
    prompt carries the phrase the generator looks for, whatever the request. *)
Theorem onboarding_prompt_is_structured
  (request : OnboardingRequest.t) (system_message : string) :
  groq_request (onboarding_prompt request) system_message =
    json_request (onboarding_prompt request) system_message.
Proof.
  unfold groq_request.
  assert (H : Py.contains "personalized climate education path"
                (Py.lower (onboarding_prompt request)) = true).
  { unfold onboarding_prompt.
    do 2 (rewrite lower_app; apply contains_app_r).
    rewrite lower_app; apply contains_app_l.
    vm_compute; reflexivity. }
  now rewrite H.
Qed.

(** A what-if scenario that mentions the phrase, in any letter case, turns
    the what-if call into a structured one: the primary provider is asked
    for a JSON object with the onboarding preamble. *)
Theorem what_if_phrase_switches_to_structured
  (scenario system_message : string) :
  Py.contains "personalized climate education path" (Py.lower scenario) = true ->
  groq_request (what_if_prompt scenario) system_message =
    json_request (what_if_prompt scenario) system_message.
Proof.
  intros Hphrase; unfold groq_request.
  assert (H : Py.contains "personalized climate education path"
                (Py.lower (what_if_prompt scenario)) = true).
  { unfold what_if_prompt.
    do 8 (rewrite lower_app; apply contains_app_r).
    rewrite lower_app; apply contains_app_l; exact Hphrase. }
  now rewrite H.
Qed.

Lemma what_if_phrase_switches_to_structured_witness :
  response_format
    (groq_request
       (what_if_prompt "What if my school had a Personalized Climate Education Path?")
       default_system_message)
  = Some "json_object".
Proof.
  rewrite (what_if_phrase_switches_to_structured
             "What if my school had a Personalized Climate Education Path?"
             default_system_message); reflexivity.
Defined.

(** ** Module start-up and the secondary credential *)

(** The module only loads with a non-empty [GEMINI_API_KEY]; so in a server
    that started, the secondary provider is skipped for one reason only:
    the key is the placeholder text. *)
Theorem started_server_has_secondary_key
  (driver : Driver) (w : World) (mongo_url db_name api_key : string) :
  load_module driver (environ w) = Started mongo_url db_name api_key ->
  environ w "GEMINI_API_KEY" = Some api_key /\
  api_key <> "" /\
  (gemini_configured w = false <-> api_key = "your_gemini_api_key_here").
Proof.
  unfold load_module, gemini_configured.
  destruct (environ w "MONGO_URL") as [m |]; [| discriminate].
  destruct (rejects_url driver m); [discriminate |].
  destruct (environ w "DB_NAME") as [n |]; [| discriminate].
  destruct (rejects_name driver n); [discriminate |].
  destruct (environ w "GEMINI_API_KEY") as [key |]; [| discriminate].
  simpl; destruct (String.eqb_spec key "") as [Hempty | Hfull]; [discriminate |].
  intros H; inversion H; subst; clear H.
  repeat split; try assumption; simpl.
  - intros H; apply negb_false_iff in H; now apply String.eqb_eq.
  - intros ->; reflexivity.
Qed.

Lemma started_server_has_secondary_key_witness :
  environ placeholder_world "GEMINI_API_KEY" = Some "your_gemini_api_key_here" /\
  gemini_configured placeholder_world = false.
Proof.
  destruct (started_server_has_secondary_key
              {| rejects_url := fun _ => None; rejects_name := fun _ => None |}
              placeholder_world
              "mongodb://localhost:27017" "ecoquest" "your_gemini_api_key_here")
    as [Henv [_ Hskip]].
  - reflexivity.
  - split; [exact Henv | apply Hskip; reflexivity].
Defined.

(** ** Onboarding, continued *)

Lemma find_user_app (docs : list User.t) (doc : User.t) (user_id : string) :
  find_user (docs ++ [doc]) user_id =
    match find_user docs user_id with
    | Some earlier => Some earlier
    | None => if User.id doc =? user_id then Some doc else None
    end.
Proof.
  induction docs as [| d rest IH]; simpl; [reflexivity |].
  destruct (User.id d =? user_id); [reflexivity | exact IH].
Qed.

Lemma complete_onboarding_inserts (rt : Runtime) (w : World)
  (request : OnboardingRequest.t) (db : DB) :
  store_fault w = None ->
  snd (complete_onboarding rt w request db) =
    {| users := (users db ++ [new_user w request])%list;
       user_progress := user_progress db |}.
Proof.
  intros Hfault.
  destruct (generate_ai_content_returns w (onboarding_prompt request)
              onboarding_system_message) as [ai_response Hai].
  rewrite (complete_onboarding_store_up rt w request db ai_response Hfault Hai).
  cbv zeta.
  destruct (welcome_of rt (parse_path rt request ai_response)); reflexivity.
Qed.

(** Insert then look up: after onboarding on a healthy store, [get_user]
    on the identifier handed out returns the user built from the request,
    whether or not onboarding itself answered; if the identifier was already
    taken, it returns the earlier user. *)
Theorem onboarded_user_is_read_back (rt : Runtime) (w w' : World)
  (request : OnboardingRequest.t) (db : DB) :
  store_fault w = None ->
  store_fault w' = None ->
  get_user w' (uuid4 w) (snd (complete_onboarding rt w request db)) =
    (Return match find_user (users db) (uuid4 w) with
            | Some earlier => earlier
            | None => new_user w request
            end,
     snd (complete_onboarding rt w request db)).
Proof.
  intros Hfault Hfault'.
  rewrite get_user_outcomes, Hfault'.
  rewrite (complete_onboarding_inserts rt w request db Hfault).
  cbn [users]; rewrite find_user_app.
  destruct (find_user (users db) (uuid4 w)); [reflexivity |].
  cbn [new_user User.id]; now rewrite String.eqb_refl.
Qed.

Lemma onboarded_user_is_read_back_witness :
  fst (get_user offline_world (uuid4 offline_world)
         (snd (complete_onboarding strict_runtime offline_world ocean_request empty_db)))
  = Return (new_user offline_world ocean_request).
Proof.
  rewrite (onboarded_user_is_read_back strict_runtime offline_world offline_world
             ocean_request empty_db); reflexivity.
Defined.

(** When the decoded object carries a welcome message that is not a string
    and fails validation, onboarding answers with the 500 error although the
    user was already inserted: the store keeps the new user. *)
Theorem failed_onboarding_keeps_the_user (rt : Runtime) (w : World)
  (request : OnboardingRequest.t) (db : DB) (ai_response : string)
  (items : list (string * json)) (value : json) :
  store_fault w = None ->
  generate_ai_content w (onboarding_prompt request) onboarding_system_message
    = Return ai_response ->
  json_loads rt ai_response = Some (JDict items) ->
  dict_lookup items "welcome_message" = Some value ->
  (forall s, value <> JStr s) ->
  validate_str rt value = None ->
  complete_onboarding rt w request db =
    (Raise (HTTPException 500 "Onboarding failed"),
     {| users := (users db ++ [new_user w request])%list;
        user_progress := user_progress db |}).
Proof.
  intros Hfault Hai Hjson Hlookup Hnotstr Hvalid.
  rewrite (complete_onboarding_store_up rt w request db ai_response Hfault Hai).
  cbv zeta; unfold parse_path, welcome_of; rewrite Hjson, Hlookup.
  destruct value; try (now rewrite Hvalid).
  exfalso; now apply (Hnotstr s).
Qed.

Lemma failed_onboarding_keeps_the_user_witness :
  complete_onboarding small_runtime numeric_world ocean_request empty_db =
    (Raise (HTTPException 500 "Onboarding failed"),
     {| users := [new_user numeric_world ocean_request]; user_progress := [] |}).
Proof.
  apply (failed_onboarding_keeps_the_user small_runtime numeric_world ocean_request
           empty_db numeric_welcome [("welcome_message", JInt 5)] (JInt 5)).
  - reflexivity.
  - vm_compute; reflexivity.
  - reflexivity.
  - reflexivity.
  - discriminate.
  - reflexivity.
Defined.

(** Any JSON object the generator produces is accepted as the personalized
    path as it is, with no check of its fields; the welcome message of the
    response is the object's when it is a string and "Welcome to EcoQuest!"
    when the object has none. *)
Theorem decoded_object_is_the_path (rt : Runtime) (w : World)
  (request : OnboardingRequest.t) (db : DB) (ai_response : string)
  (items : list (string * json)) :
  store_fault w = None ->
  generate_ai_content w (onboarding_prompt request) onboarding_system_message
    = Return ai_response ->
  json_loads rt ai_response = Some (JDict items) ->
  (dict_lookup items "welcome_message" = None \/
   exists s, dict_lookup items "welcome_message" = Some (JStr s)) ->
  fst (complete_onboarding rt w request db) =
    Return {| OnboardingResponse.user_id := uuid4 w;
              OnboardingResponse.personalized_path := items;
              OnboardingResponse.welcome_message :=
                match dict_lookup items "welcome_message" with
                | Some (JStr s) => s
                | _ => "Welcome to EcoQuest!"
                end |}.
Proof.
  intros Hfault Hai Hjson Hwelcome.
  rewrite (complete_onboarding_store_up rt w request db ai_response Hfault Hai).
  cbv zeta; unfold parse_path, welcome_of; rewrite Hjson.
  destruct Hwelcome as [Hnone | [s Hsome]].
  - now rewrite Hnone.
  - now rewrite Hsome.
Qed.

Lemma decoded_object_is_the_path_witness :
  fst (complete_onboarding strict_runtime empty_object_world ocean_request empty_db) =
    Return {| OnboardingResponse.user_id := uuid4 empty_object_world;
              OnboardingResponse.personalized_path := [];
              OnboardingResponse.welcome_message := "Welcome to EcoQuest!" |}.
Proof.
  apply (decoded_object_is_the_path strict_runtime empty_object_world ocean_request
           empty_db "{}" []).
  - reflexivity.
  - vm_compute; reflexivity.
  - reflexivity.
  - left; reflexivity.
Defined.

(** Generator output that is valid JSON but not an object (a list, a
    number, a string) is treated like invalid JSON: onboarding answers with
    the fallback path. *)
Theorem non_object_json_falls_back (rt : Runtime) (w : World)
  (request : OnboardingRequest.t) (db : DB) (ai_response : string) (value : json) :
  store_fault w = None ->
  generate_ai_content w (onboarding_prompt request) onboarding_system_message
    = Return ai_response ->
  json_loads rt ai_response = Some value ->
  (forall items, value <> JDict items) ->
  exists response,
    fst (complete_onboarding rt w request db) = Return response /\
    OnboardingResponse.personalized_path response = fallback_path rt request /\
    dict_lookup (fallback_path rt request) "welcome_message"
      = Some (JStr (OnboardingResponse.welcome_message response)).
Proof.
  intros Hfault Hai Hjson Hshape.
  rewrite (complete_onboarding_store_up rt w request db ai_response Hfault Hai).
  cbv zeta.
  assert (Hpath : parse_path rt request ai_response = fallback_path rt request).
  { unfold parse_path; rewrite Hjson.
    destruct value; try reflexivity.
    exfalso; now apply (Hshape items). }
  rewrite Hpath.
  eexists; split; [reflexivity | split; reflexivity].
Qed.

Lemma non_object_json_falls_back_witness :
  exists response,
    fst (complete_onboarding small_runtime scalar_world ocean_request empty_db)
      = Return response /\
    OnboardingResponse.personalized_path response = fallback_path small_runtime ocean_request.
Proof.
  destruct (non_object_json_falls_back small_runtime scalar_world ocean_request
              empty_db "5" (JInt 5))
    as [response [Hret [Hpath _]]].
  - reflexivity.
  - vm_compute; reflexivity.
  - reflexivity.
  - discriminate.
  - exists response; split; assumption.
Defined.

(** ** Impact calculation and the progress collection, continued *)

Lemma calculate_impact_store (w : World) (request : HabitInput.t) (db : DB) :
  snd (calculate_impact w request db) =
    match store_fault w with
    | Some _ => db
    | None =>
        {| users := users db;
           user_progress :=
             upsert (user_progress db) (HabitInput.user_id request)
                    (fresh_progress w request) |}
    end.
Proof.
  destruct (store_fault w) as [e |] eqn:Hfault.
  - now rewrite (calculate_impact_store_down w request db e Hfault).
  - destruct (calculate_impact_store_up w request db Hfault) as [text Heq].
    now rewrite Heq.
Qed.

Lemma replace_first_other (docs docs' : list UserProgress.t) (user_id other : string)
  (doc : UserProgress.t) :
  UserProgress.user_id doc = user_id ->
  other <> user_id ->
  replace_first docs user_id doc = Some docs' ->
  filter (fun d => UserProgress.user_id d =? other) docs' =
  filter (fun d => UserProgress.user_id d =? other) docs.
Proof.
  intros Hdoc Hother; revert docs'.
  induction docs as [| d rest IH]; simpl; intros docs' H; [discriminate |].
  destruct (String.eqb_spec (UserProgress.user_id d) user_id) as [Heq | Hne].
  - inversion H; subst docs'; simpl.
    rewrite Hdoc, Heq.
    assert (Hno : (user_id =? other) = false)
      by (apply String.eqb_neq; congruence).
    now rewrite Hno.
  - destruct (replace_first rest user_id doc) as [rest' |]; [| discriminate].
    inversion H; subst docs'; simpl.
    now rewrite (IH rest' eq_refl).
Qed.

Lemma upsert_other (docs : list UserProgress.t) (other : string) (doc : UserProgress.t) :
  other <> UserProgress.user_id doc ->
  filter (fun d => UserProgress.user_id d =? other)
         (upsert docs (UserProgress.user_id doc) doc) =
  filter (fun d => UserProgress.user_id d =? other) docs.
Proof.
  intros Hother; unfold upsert.
  destruct (replace_first docs (UserProgress.user_id doc) doc) as [docs' |] eqn:Hr.
  - exact (replace_first_other docs docs' _ other doc eq_refl Hother Hr).
  - rewrite filter_app; simpl.
    assert (Hno : (UserProgress.user_id doc =? other) = false)
      by (apply String.eqb_neq; congruence).
    rewrite Hno; apply app_nil_r.
Qed.

(** An impact calculation touches the progress of its own user only: the
    documents of every other user and the users collection stay as they
    were, whether the call answers or fails. *)
Theorem calculate_impact_touches_one_user (w : World) (request : HabitInput.t)
  (db : DB) (other : string) :
  other <> HabitInput.user_id request ->
  progress_of other (snd (calculate_impact w request db)) = progress_of other db /\
  users (snd (calculate_impact w request db)) = users db.
Proof.
  intros Hother; rewrite calculate_impact_store.
  destruct (store_fault w); [split; reflexivity |].
  split; [| reflexivity].
  unfold progress_of; cbn [user_progress].
  exact (upsert_other (user_progress db) other (fresh_progress w request) Hother).
Qed.

Lemma calculate_impact_touches_one_user_witness :
  progress_of "someone-else"
    (snd (calculate_impact offline_world commuter_request empty_db)) = [].
Proof.
  apply (calculate_impact_touches_one_user offline_world commuter_request empty_db
           "someone-else").
  discriminate.
Defined.

Lemma replace_first_again (docs docs' : list UserProgress.t) (doc : UserProgress.t) :
  replace_first docs (UserProgress.user_id doc) doc = Some docs' ->
  replace_first docs' (UserProgress.user_id doc) doc = Some docs'.
Proof.
  revert docs'; induction docs as [| d rest IH]; simpl; intros docs' H; [discriminate |].
  destruct (String.eqb_spec (UserProgress.user_id d) (UserProgress.user_id doc))
    as [Heq | Hne].
  - inversion H; subst docs'; simpl; now rewrite String.eqb_refl.
  - destruct (replace_first rest (UserProgress.user_id doc) doc) as [rest' |];
      [| discriminate].
    inversion H; subst docs'; simpl.
    apply String.eqb_neq in Hne; rewrite Hne.
    now rewrite (IH rest' eq_refl).
Qed.

Lemma replace_first_appended (docs : list UserProgress.t) (doc : UserProgress.t) :
  replace_first docs (UserProgress.user_id doc) doc = None ->
  replace_first (docs ++ [doc]) (UserProgress.user_id doc) doc = Some (docs ++ [doc])%list.
Proof.
  induction docs as [| d rest IH]; simpl; intros H.
  - now rewrite String.eqb_refl.
  - destruct (UserProgress.user_id d =? UserProgress.user_id doc); [discriminate |].
    destruct (replace_first rest (UserProgress.user_id doc) doc); [discriminate |].
    now rewrite (IH eq_refl).
Qed.

Lemma upsert_idempotent (docs : list UserProgress.t) (doc : UserProgress.t) :
  upsert (upsert docs (UserProgress.user_id doc) doc) (UserProgress.user_id doc) doc =
  upsert docs (UserProgress.user_id doc) doc.
Proof.
  unfold upsert at 2 3.
  destruct (replace_first docs (UserProgress.user_id doc) doc) as [docs' |] eqn:Hr;
    unfold upsert.
  - now rewrite (replace_first_again docs docs' doc Hr).
  - now rewrite (replace_first_appended docs doc Hr).
Qed.

(** Repeating an impact calculation with the same request and the same
    clock reading leaves the store as the first call left it, on any store. *)
Theorem calculate_impact_is_idempotent (w : World) (request : HabitInput.t) (db : DB) :
  snd (calculate_impact w request (snd (calculate_impact w request db))) =
  snd (calculate_impact w request db).
Proof.
  rewrite !calculate_impact_store.
  destruct (store_fault w); [reflexivity |].
  cbn [users user_progress]; f_equal.
  exact (upsert_idempotent (user_progress db) (fresh_progress w request)).
Qed.

Lemma replace_first_length (docs docs' : list UserProgress.t) (user_id : string)
  (doc : UserProgress.t) :
  replace_first docs user_id doc = Some docs' ->
  List.length docs' = List.length docs.
Proof.
  revert docs'; induction docs as [| d rest IH]; simpl; intros docs' H; [discriminate |].
  destruct (UserProgress.user_id d =? user_id).
  - inversion H; reflexivity.
  - destruct (replace_first rest user_id doc) as [rest' |]; [| discriminate].
    inversion H; simpl; now rewrite (IH rest' eq_refl).
Qed.

Lemma replace_first_some_iff (docs : list UserProgress.t) (user_id : string)
  (doc : UserProgress.t) :
  existsb (fun d => UserProgress.user_id d =? user_id) docs =
  match replace_first docs user_id doc with Some _ => true | None => false end.
Proof.
  induction docs as [| d rest IH]; simpl; [reflexivity |].
  destruct (UserProgress.user_id d =? user_id); [reflexivity |].
  simpl; rewrite IH.
  destruct (replace_first rest user_id doc); reflexivity.
Qed.

(** On a healthy store an impact calculation deletes nothing and adds at
    most one progress document: the collection grows by one exactly when
    the user had no document, and keeps its size otherwise. *)
Theorem calculate_impact_grows_by_at_most_one (w : World) (request : HabitInput.t)
  (db : DB) :
  store_fault w = None ->
  List.length (user_progress (snd (calculate_impact w request db))) =
    if existsb (fun d => UserProgress.user_id d =? HabitInput.user_id request)
               (user_progress db)
    then List.length (user_progress db)
    else S (List.length (user_progress db)).
Proof.
  intros Hfault; rewrite calculate_impact_store, Hfault; cbn [user_progress].
  rewrite (replace_first_some_iff _ _ (fresh_progress w request)); unfold upsert.
  destruct (replace_first (user_progress db) (HabitInput.user_id request)
              (fresh_progress w request)) as [docs' |] eqn:Hr.
  - exact (replace_first_length _ _ _ _ Hr).
  - rewrite length_app; simpl; lia.
Qed.

Lemma calculate_impact_grows_by_at_most_one_witness :
  List.length
    (user_progress (snd (calculate_impact offline_world commuter_request empty_db)))
  = 1%nat.
Proof.
  rewrite (calculate_impact_grows_by_at_most_one offline_world commuter_request empty_db);
    reflexivity.
Defined.

(** ** The handlers that only read, continued *)

Lemma what_if_scenario_run (w : World) (request : WhatIfRequest.t) (db : DB) (text : string) :
  generate_ai_content w (what_if_prompt (WhatIfRequest.scenario request))
    default_system_message = Return text ->
  what_if_scenario w request db = (Return [("scenario_response", JStr text)], db).
Proof.
  intros H; unfold what_if_scenario, try_except_M, mbind, lift, ret.
  cbv zeta; now rewrite H.
Qed.

(** [what_if_scenario] never answers with its 500 error: whatever the
    providers and the store do, it returns the generator's text as the
    scenario and leaves the store alone. *)
Theorem what_if_always_answers (w : World) (request : WhatIfRequest.t) (db : DB) :
  exists text,
    generate_ai_content w (what_if_prompt (WhatIfRequest.scenario request))
      default_system_message = Return text /\
    what_if_scenario w request db = (Return [("scenario_response", JStr text)], db).
Proof.
  destruct (generate_ai_content_returns w
              (what_if_prompt (WhatIfRequest.scenario request))
              default_system_message) as [text Htext].
  exists text; split; [exact Htext | now apply what_if_scenario_run].
Qed.

(** With no usable credential the degraded-service string is served as
    content in a normal response: as the what-if scenario and, on a healthy
    store, as the positive-impact message of an impact calculation. *)
Theorem degraded_text_is_served_as_content (w : World)
  (scenario : WhatIfRequest.t) (habits : HabitInput.t) (db : DB) :
  groq_configured w = false ->
  gemini_configured w = false ->
  store_fault w = None ->
  what_if_scenario w scenario db = (Return [("scenario_response", JStr error_msg)], db) /\
  exists response,
    fst (calculate_impact w habits db) = Return response /\
    ImpactSimulation.positive_impact response = error_msg.
Proof.
  intros Hg Hs Hfault; split.
  - apply what_if_scenario_run, no_credential_degrades; assumption.
  - unfold calculate_impact, try_except_M, mbind, lift, user_progress_replace_one,
      store_call, ret.
    cbv zeta; rewrite (no_credential_degrades w _ _ Hg Hs), Hfault.
    eexists; split; reflexivity.
Qed.

Lemma degraded_text_is_served_as_content_witness :
  what_if_scenario offline_world
    {| WhatIfRequest.scenario := "What if everyone cycled to work?";
       WhatIfRequest.context := None |} empty_db
  = (Return [("scenario_response", JStr error_msg)], empty_db).
Proof.
  apply (degraded_text_is_served_as_content offline_world
           {| WhatIfRequest.scenario := "What if everyone cycled to work?";
              WhatIfRequest.context := None |} commuter_request empty_db);
    reflexivity.
Defined.

Lemma get_local_actions_run (rt : Runtime) (w : World)
  (request : LocalActionRequest.t) (db : DB) (response : string) :
  generate_ai_content w (local_actions_prompt request) default_system_message
    = Return response ->
  get_local_actions rt w request db =
    match log_len (parse_actions rt response) with
    | Return _ => (Return [("local_actions", parse_actions rt response)], db)
    | Raise _ => (Raise (HTTPException 500 "Local actions retrieval failed"), db)
    end.
Proof.
  intros H; unfold get_local_actions, try_except_M, mbind, lift, ret, raise.
  cbv zeta; rewrite H.
  destruct (log_len (parse_actions rt response)); reflexivity.
Qed.

(** When the generator's text is not valid JSON, [get_local_actions]
    returns the two fixed fallback actions, the beach or park cleanup and
    the community garden, in that order. *)
Theorem local_actions_fall_back (rt : Runtime) (w : World)
  (request : LocalActionRequest.t) (db : DB) (response : string) :
  generate_ai_content w (local_actions_prompt request) default_system_message
    = Return response ->
  json_loads rt response = None ->
  get_local_actions rt w request db =
    (Return [("local_actions", fallback_actions)], db) /\
  (match fallback_actions with
   | JList entries => map title_of entries
   | _ => []
   end) = [Some "Join a local beach/park cleanup"; Some "Start a community garden"].
Proof.
  intros Hai Hjson; split; [| reflexivity].
  rewrite (get_local_actions_run rt w request db response Hai).
  unfold parse_actions; now rewrite Hjson.
Qed.

Lemma local_actions_fall_back_witness :
  get_local_actions strict_runtime offline_world city_request empty_db =
    (Return [("local_actions", fallback_actions)], empty_db).
Proof.
  apply (local_actions_fall_back strict_runtime offline_world city_request empty_db
           error_msg).
  - vm_compute; reflexivity.
  - reflexivity.
Defined.

(** Valid JSON is returned by [get_local_actions] as it is, whatever its
    shape (an object or a string as much as a list), except when it is a
    number, a boolean or null: then the handler's log line raises and the
    caller gets the 500 error. *)
Theorem local_actions_pass_through_or_fail (rt : Runtime) (w : World)
  (request : LocalActionRequest.t) (db : DB) (response : string) (value : json) :
  generate_ai_content w (local_actions_prompt request) default_system_message
    = Return response ->
  json_loads rt response = Some value ->
  get_local_actions rt w request db =
    if is_scalar value
    then (Raise (HTTPException 500 "Local actions retrieval failed"), db)
    else (Return [("local_actions", value)], db).
Proof.
  intros Hai Hjson.
  rewrite (get_local_actions_run rt w request db response Hai).
  unfold parse_actions; rewrite Hjson.
  destruct value; reflexivity.
Qed.

Lemma local_actions_pass_through_or_fail_witness :
  get_local_actions small_runtime scalar_world city_request empty_db =
    (Raise (HTTPException 500 "Local actions retrieval failed"), empty_db).
Proof.
  apply (local_actions_pass_through_or_fail small_runtime scalar_world city_request
           empty_db "5" (JInt 5)).
  - vm_compute; reflexivity.
  - reflexivity.
Defined.

Lemma get_learning_content_general (fr : Foreign) (rt : Runtime) (w : World)
  (request : list (string * json)) (db : DB) (response : string) :
  generate_ai_content w (general_prompt fr (topic_of request)) learning_system_message
    = Return response ->
  (names_user request = false \/
   exists s, dict_lookup request "user_id" = Some (JStr s) /\
             store_fault w = None /\ find_user (users db) s = None) ->
  get_learning_content fr rt w request db = (Return (learning_reply rt response), db).
Proof.
  intros Hai Hcase.
  unfold get_learning_content, try_except_M, mbind, lift, ret, learning_reply.
  unfold names_user, topic_of in *; cbv zeta.
  destruct Hcase as [Hanon | [s [Hid [Hfault Hmiss]]]].
  - destruct (dict_lookup request "user_id") as [value |].
    + rewrite Hanon; unfold ret; rewrite Hai.
      destruct (json_loads rt response); reflexivity.
    + unfold ret; rewrite Hai.
      destruct (json_loads rt response); reflexivity.
  - rewrite Hid; unfold users_find_one_by, store_call; rewrite Hfault.
    destruct (truthy (JStr s)).
    + rewrite Hmiss, Hai.
      destruct (json_loads rt response); reflexivity.
    + unfold ret; rewrite Hai.
      destruct (json_loads rt response); reflexivity.
Qed.

(** A request that names no user (no [user_id], or a null, empty, zero or
    false one) never consults the store: [get_learning_content] answers
    even when the store is down, with the decoded content for the
    general-audience prompt or, when the text is not valid JSON, with an
    error object returned as a normal response. *)
Theorem learning_content_without_user (fr : Foreign) (rt : Runtime) (w : World)
  (request : list (string * json)) (db : DB) :
  names_user request = false ->
  exists response,
    generate_ai_content w (general_prompt fr (topic_of request)) learning_system_message
      = Return response /\
    get_learning_content fr rt w request db =
      (Return match json_loads rt response with
              | Some content => [("learning_content", content)]
              | None => [("error", JStr "Failed to generate structured learning content")]
              end, db).
Proof.
  intros Hanon.
  destruct (generate_ai_content_returns w (general_prompt fr (topic_of request))
              learning_system_message) as [response Hai].
  exists response; split; [exact Hai |].
  apply (get_learning_content_general fr rt w request db response Hai).
  now left.
Qed.

Lemma learning_content_without_user_witness :
  get_learning_content strict_foreign strict_runtime down_store_world
    [("user_id", JStr ""); ("topic", JStr "oceans")] empty_db
  = (Return [("error", JStr "Failed to generate structured learning content")], empty_db).
Proof.
  destruct (learning_content_without_user strict_foreign strict_runtime
              down_store_world [("user_id", JStr ""); ("topic", JStr "oceans")] empty_db)
    as [response [Hai Hrun]].
  - reflexivity.
  - rewrite Hrun.
    vm_compute in Hai; inversion Hai; subst response; reflexivity.
Defined.

(** A request that names a user the store does not hold is served like an
    anonymous one: same general-audience prompt, same answer, no error. *)
Theorem learning_content_for_unknown_user (fr : Foreign) (rt : Runtime) (w : World)
  (request : list (string * json)) (db : DB) (user_id : string) :
  dict_lookup request "user_id" = Some (JStr user_id) ->
  store_fault w = None ->
  find_user (users db) user_id = None ->
  exists response,
    generate_ai_content w (general_prompt fr (topic_of request)) learning_system_message
      = Return response /\
    get_learning_content fr rt w request db = (Return (learning_reply rt response), db).
Proof.
  intros Hid Hfault Hmiss.
  destruct (generate_ai_content_returns w (general_prompt fr (topic_of request))
              learning_system_message) as [response Hai].
  exists response; split; [exact Hai |].
  apply (get_learning_content_general fr rt w request db response Hai).
  right; exists user_id; repeat split; assumption.
Qed.

Lemma learning_content_for_unknown_user_witness :
  exists response,
    get_learning_content strict_foreign strict_runtime offline_world
      [("user_id", JStr "0b0e7a52-never-inserted")] empty_db
    = (Return (learning_reply strict_runtime response), empty_db).
Proof.
  destruct (learning_content_for_unknown_user strict_foreign strict_runtime
              offline_world [("user_id", JStr "0b0e7a52-never-inserted")] empty_db
              "0b0e7a52-never-inserted")
    as [response [_ Hrun]]; try reflexivity.
  exists response; exact Hrun.
Defined.

(** The four handlers that read never write: whatever they answer, the
    store after the call is the store before it. *)
Theorem readers_leave_the_store (fr : Foreign) (rt : Runtime) (w : World) (db : DB)
  (user_id : string) (scenario : WhatIfRequest.t) (place : LocalActionRequest.t)
  (body : list (string * json)) :
  snd (get_user w user_id db) = db /\
  snd (what_if_scenario w scenario db) = db /\
  snd (get_local_actions rt w place db) = db /\
  snd (get_learning_content fr rt w body db) = db.
Proof.
  repeat split.
  - rewrite get_user_outcomes.
    destruct (store_fault w); [reflexivity |].
    destruct (find_user (users db) user_id); reflexivity.
  - destruct (generate_ai_content_returns w
                (what_if_prompt (WhatIfRequest.scenario scenario))
                default_system_message) as [text Htext].
    now rewrite (what_if_scenario_run w scenario db text Htext).
  - destruct (generate_ai_content_returns w (local_actions_prompt place)
                default_system_message) as [text Htext].
    rewrite (get_local_actions_run rt w place db text Htext).
    destruct (log_len (parse_actions rt text)); reflexivity.
  - unfold get_learning_content, try_except_M, mbind, lift, ret, raise,
      users_find_one_by, store_call.
    cbv zeta.
    repeat (cbn beta iota;
            match goal with
            | |- context [dict_lookup body "user_id"] =>
                destruct (dict_lookup body "user_id")
            | |- context [truthy ?v] => destruct (truthy v)
            | |- context [store_fault w] => destruct (store_fault w)
            | |- context [find_user ?a ?b] => destruct (find_user a b)
            | |- context [query_users ?a ?b ?c] =>
                destruct (query_users a b c) as [[? |] | ?]
            | |- context [generate_ai_content ?a ?b ?c] =>
                destruct (generate_ai_content a b c)
            | |- context [json_loads ?a ?b] => destruct (json_loads a b)
            | j : json |- _ => destruct j
            end);
      reflexivity.
Qed.

(** ** Invariants of the reachable stores *)

Lemma replace_first_forall (P : UserProgress.t -> Prop)
  (docs docs' : list UserProgress.t) (user_id : string) (doc : UserProgress.t) :
  P doc -> Forall P docs ->
  replace_first docs user_id doc = Some docs' -> Forall P docs'.
Proof.
  intros Hdoc Hall; revert docs'.
  induction Hall as [| d rest Hd Hrest IH]; simpl; intros docs' H; [discriminate |].
  destruct (UserProgress.user_id d =? user_id).
  - inversion H; subst; now constructor.
  - destruct (replace_first rest user_id doc) as [rest' |]; [| discriminate].
    inversion H; subst; constructor; [exact Hd | now apply IH].
Qed.

Lemma upsert_forall (P : UserProgress.t -> Prop)
  (docs : list UserProgress.t) (user_id : string) (doc : UserProgress.t) :
  P doc -> Forall P docs -> Forall P (upsert docs user_id doc).
Proof.
  intros Hdoc Hall; unfold upsert.
  destruct (replace_first docs user_id doc) as [docs' |] eqn:Hr.
  - exact (replace_first_forall P docs docs' user_id doc Hdoc Hall Hr).
  - apply Forall_app; split; [exact Hall | now constructor].
Qed.

Lemma fresh_progress_consistent (w : World) (request : HabitInput.t) :
  progress_consistent (fresh_progress w request).
Proof.
  exists (HabitInput.transport request), (HabitInput.diet request),
         (HabitInput.energy_usage request), (HabitInput.waste_habits request).
  repeat split.
Qed.

Lemma nodup_filter_short (docs : list UserProgress.t) (user_id : string) :
  NoDup (map UserProgress.user_id docs) ->
  (List.length (filter (fun d => (UserProgress.user_id d =? user_id)%string) docs) <= 1)%nat.
Proof.
  induction docs as [| d rest IH]; simpl; intros Hnd; [lia |].
  inversion Hnd as [| k ks Hnotin Hrest]; subst.
  destruct (String.eqb_spec (UserProgress.user_id d) user_id) as [Heq | Hne].
  - rewrite filter_absent; [simpl; lia | now rewrite <- Heq].
  - now apply IH.
Qed.

(** Every store the server can reach keeps three invariants: a user
    document is as onboarding wrote it (0 points, level 1, no completed
    quest); a progress document has no completed action, a streak of 0 and a
    footprint that is the estimate of the four habits it records; and no
    user has more than one progress document. *)
Theorem reachable_store_invariants (rt : Runtime) (db : DB) :
  reachable rt db ->
  Forall user_untouched (users db) /\
  Forall progress_consistent (user_progress db) /\
  (forall user_id, (List.length (progress_of user_id db) <= 1)%nat).
Proof.
  intros Hreach; split; [| split].
  - induction Hreach as [| db w request Hreach IH | db w request Hreach IH].
    + constructor.
    + destruct (store_fault w) as [e |] eqn:Hfault.
      * now rewrite (complete_onboarding_store_down rt w request db e Hfault).
      * rewrite (complete_onboarding_inserts rt w request db Hfault); cbn [users].
        apply Forall_app; split; [exact IH |].
        constructor; [repeat split | constructor].
    + rewrite calculate_impact_store; destruct (store_fault w); exact IH.
  - induction Hreach as [| db w request Hreach IH | db w request Hreach IH].
    + constructor.
    + now rewrite complete_onboarding_keeps_progress.
    + rewrite calculate_impact_store; destruct (store_fault w); [exact IH |].
      cbn [user_progress].
      apply upsert_forall; [apply fresh_progress_consistent | exact IH].
  - intros user_id; unfold progress_of.
    apply nodup_filter_short.
    exact (reachable_progress_keys_nodup rt db Hreach).
Qed.

Lemma reachable_store_invariants_witness :
  Forall progress_consistent
    (user_progress (snd (calculate_impact offline_world commuter_request
       (snd (complete_onboarding strict_runtime offline_world ocean_request empty_db))))).
Proof.
  apply (reachable_store_invariants strict_runtime).
  apply reach_impact, reach_onboarding, reach_empty.
Defined.

(** ** Learning content for a stored user *)

Lemma get_learning_content_personal (fr : Foreign) (rt : Runtime) (w : World)
  (request : list (string * json)) (db : DB) (user_id response : string) (doc : User.t) :
  dict_lookup request "user_id" = Some (JStr user_id) ->
  user_id <> "" ->
  store_fault w = None ->
  find_user (users db) user_id = Some doc ->
  generate_ai_content w (personal_prompt fr (topic_of request) doc)
    learning_system_message = Return response ->
  get_learning_content fr rt w request db = (Return (learning_reply rt response), db).
Proof.
  intros Hid Hne Hfault Hfound Hai.
  unfold get_learning_content, try_except_M, mbind, lift, ret, learning_reply,
    users_find_one_by, store_call.
  unfold topic_of in Hai; cbv zeta.
  apply String.eqb_neq in Hne.
  rewrite Hid; cbn [truthy]; rewrite Hne; cbn [negb].
  rewrite Hfault, Hfound, Hai.
  destruct (json_loads rt response); reflexivity.
Qed.

(** Onboarding then learning: on a healthy store, a learning-content
    request that names the identifier onboarding handed out is answered
    from the personal prompt, built from the age, level, interests and
    learning style of the onboarding request. *)
Theorem learning_content_for_onboarded_user (fr : Foreign) (rt rt' : Runtime)
  (w w' : World) (request : OnboardingRequest.t) (body : list (string * json)) (db : DB) :
  store_fault w = None ->
  store_fault w' = None ->
  uuid4 w <> "" ->
  find_user (users db) (uuid4 w) = None ->
  dict_lookup body "user_id" = Some (JStr (uuid4 w)) ->
  exists response,
    generate_ai_content w'
      (personal_prompt fr (topic_of body) (new_user w request))
      learning_system_message = Return response /\
    get_learning_content fr rt' w' body (snd (complete_onboarding rt w request db)) =
      (Return (learning_reply rt' response), snd (complete_onboarding rt w request db)).
Proof.
  intros Hfault Hfault' Hid Hfresh Hbody.
  destruct (generate_ai_content_returns w'
              (personal_prompt fr (topic_of body) (new_user w request))
              learning_system_message) as [response Hai].
  exists response; split; [exact Hai |].
  apply (get_learning_content_personal fr rt' w' body _ (uuid4 w) response
           (new_user w request) Hbody Hid Hfault'); [| exact Hai].
  rewrite (complete_onboarding_inserts rt w request db Hfault); cbn [users].
  rewrite find_user_app, Hfresh.
  cbn [new_user User.id]; now rewrite String.eqb_refl.
Qed.

Lemma learning_content_for_onboarded_user_witness :
  exists response,
    get_learning_content strict_foreign strict_runtime offline_world
      [("user_id", JStr (uuid4 offline_world)); ("topic", JStr "oceans")]
      (snd (complete_onboarding strict_runtime offline_world ocean_request empty_db))
    = (Return (learning_reply strict_runtime response),
       snd (complete_onboarding strict_runtime offline_world ocean_request empty_db)).
Proof.
  destruct (learning_content_for_onboarded_user strict_foreign strict_runtime
              strict_runtime offline_world offline_world ocean_request
              [("user_id", JStr (uuid4 offline_world)); ("topic", JStr "oceans")]
              empty_db)
    as [response [_ Hrun]]; try reflexivity.
  - discriminate.
  - exists response; exact Hrun.
Defined.
